(** * polyscope: the scalar-quantity state of a structure

    A shallow embedding of [include/polyscope/scalar_quantity.ipp]: the
    template class [ScalarQuantity<QuantityT>], which owns the per-element
    scalar values of a quantity, the data range and the colormap window
    derived from them, the persisted display options (colormap, isolines)
    and the lazily created render buffer.

    A C++ [double] is a binary64 number: Rocq's primitive [float].  A C++
    [float] is a binary32 number, modelled as the binary64 number it widens
    to; the narrowing conversion is [to_single].  The members held as
    [float] are the two ends of [vizRange], the isoline width and the
    isoline darkness: their addresses are what the [float*] parameters of
    the UI toolkit's drag widgets are given in [buildScalarUI].  Methods
    are computations in a small state-and-exception monad over the object
    and the global collaborators it talks to (persistence caches, redraw
    request, owner). *)

From Stdlib Require Import ZArith Floats Uint63.
From stdpp Require Import base strings list gmap.

Set Warnings "-inexact-float".

(** ** Numbers *)

Module Num.

Abbreviation double := float (only parsing).

(** Rounding of a binary64 number to binary32 (24 bits of precision,
    exponents up to 128), round to nearest even: the implicit conversion
    [double -> float]. Infinities, zeros and NaN are kept. *)
Definition single_of_spec (x : spec_float) : spec_float :=
  match x with
  | S754_finite s m e => binary_round 24 128 s m e
  | _ => x
  end.

Definition to_single (x : double) : float :=
  SF2Prim (single_of_spec (Prim2SF x)).

(** [std::abs] on a double. *)
Definition std_abs (x : double) : double := PrimFloat.abs x.

(** [std::max(a, b)] is [(a < b) ? b : a]. *)
Definition std_max (a b : double) : double :=
  if PrimFloat.ltb a b then b else a.

(** [first <= second] on a [std::pair<double, double>]. *)
Definition ordered (p : double * double) : bool :=
  PrimFloat.leb (fst p) (snd p).

(** Assignment of a [std::pair<double, double>] to a [std::pair<float, float>]:
    each component is narrowed. *)
Definition narrowed (p : double * double) : float * float :=
  (to_single (fst p), to_single (snd p)).

End Num.
Export Num.

(** ** Collaborators declared outside this file *)

Inductive DataType := STANDARD | SYMMETRIC | MAGNITUDE.

Inductive RenderDataType := Float_t.

(** Modelled from the spec: the GPU buffer abstraction [render::AttributeBuffer]
    (allocate, upload, isAllocated, size, readScalar).  [bufData] is [None]
    until the first upload; an upload into a [Float] buffer narrows every
    entry to single precision. *)
Record AttributeBuffer := mkBuffer {
  bufType : RenderDataType;
  bufData : option (list float)
}.

Module Buffer.

Definition generateAttributeBuffer (t : RenderDataType) : AttributeBuffer :=
  mkBuffer t None.

Definition isSet (b : AttributeBuffer) : bool :=
  match bufData b with Some _ => true | None => false end.

Definition setData (b : AttributeBuffer) (data : list double) : AttributeBuffer :=
  mkBuffer (bufType b) (Some (map to_single data)).

Definition getDataSize (b : AttributeBuffer) : nat :=
  match bufData b with Some d => length d | None => 0 end.

Definition getData_float (b : AttributeBuffer) (ind : nat) : option float :=
  match bufData b with Some d => d !! ind | None => None end.

End Buffer.

(** Modelled from the spec: [ScaledValue<float>], a single-precision value
    tagged relative or absolute.  [asAbsolute] is the effective absolute
    value: the stored value when absolute, the stored fraction times a
    scale when relative.  The value is built from a number and a flag and
    [asAbsolute()] takes no argument, so the scale is not the object's: it
    is kept with the globals ([relative_scale]). *)
Record ScaledValue := mkScaled {
  relativeFlag : bool;
  sv_value : float
}.

Module Scaled.

Definition make (value : double) (isRelative : bool) : ScaledValue :=
  mkScaled isRelative (to_single value).

Definition absoluteValue (value : double) : ScaledValue := make value false.

Definition asAbsolute (scale : double) (v : ScaledValue) : double :=
  if relativeFlag v then PrimFloat.mul (sv_value v) scale else sv_value v.

End Scaled.

(** Modelled from the spec: [PersistentValue<T>], a cell persisted under a
    key.  Construction takes the cached entry of the key when there is one
    and the given default otherwise; assignment stores the value in the
    cell and in the cache and marks the cell as explicitly set. *)
Record PersistentValue (T : Type) := mkPersistent {
  pv_name : string;
  pv_value : T;
  pv_explicit : bool
}.
Arguments mkPersistent {T} _ _ _.
Arguments pv_name {T} _.
Arguments pv_value {T} _.
Arguments pv_explicit {T} _.

Module Persistent.
Section Cell.
Context {T : Type}.

Definition construct (cache : gmap string T) (name : string) (dflt : T)
  : PersistentValue T :=
  match cache !! name with
  | Some v => mkPersistent name v true
  | None => mkPersistent name dflt false
  end.

Definition get (p : PersistentValue T) : T := pv_value p.

Definition assign (p : PersistentValue T) (v : T) : PersistentValue T :=
  mkPersistent (pv_name p) v true.

Definition remember (cache : gmap string T) (p : PersistentValue T)
  : gmap string T :=
  <[pv_name p := pv_value p]> cache.

End Cell.
End Persistent.

(** Modelled from the spec: the histogram widget, of which only the calls
    made here are kept: the colormap it draws with and the values it was
    last built from. *)
Record Histogram := mkHistogram {
  hist_colormap : string;
  hist_values : list double
}.

(** The owning quantity, seen through its capability interface:
    [uniquePrefix()] is a field, [refresh()] an effect (below). *)
Record Quantity := mkQuantity {
  uniquePrefix : string
}.

(** ** The object and its surroundings *)

Record ScalarQuantity := mkScalarQuantity {
  quantity : Quantity;
  values : list double;
  dataType : DataType;
  dataRange : double * double;
  vizRange : float * float;
  cMap : PersistentValue string;
  isolinesEnabled : PersistentValue bool;
  isolineWidth : PersistentValue ScaledValue;
  isolineDarkness : PersistentValue float;
  hist : Histogram;
  scalarRenderBuffer : option AttributeBuffer
}.

(** Calls into collaborators whose state is not kept here. *)
Inductive Effect :=
| RequestRedraw
| QuantityRefresh
| SetUniform (name : string) (value : double).

(** What lives outside the object: the persistence caches (one per value
    type), the log of calls made to the outside, oldest first, and the
    scale a relative [ScaledValue] is a fraction of. *)
Record Globals := mkGlobals {
  cache_string : gmap string string;
  cache_bool : gmap string bool;
  cache_scaled : gmap string ScaledValue;
  cache_float : gmap string float;
  effects : list Effect;
  relative_scale : double
}.

Record World := mkWorld {
  this : ScalarQuantity;
  globals : Globals
}.

Definition with_this (f : ScalarQuantity -> ScalarQuantity) (w : World) : World :=
  mkWorld (f (this w)) (globals w).

Definition emit (e : Effect) (w : World) : World :=
  let g := globals w in
  mkWorld (this w)
    (mkGlobals (cache_string g) (cache_bool g) (cache_scaled g) (cache_float g)
       (effects g ++ [e]) (relative_scale g)).

Definition put_values (v : list double) (q : ScalarQuantity) : ScalarQuantity :=
  mkScalarQuantity (quantity q) v (dataType q) (dataRange q) (vizRange q)
    (cMap q) (isolinesEnabled q) (isolineWidth q) (isolineDarkness q)
    (hist q) (scalarRenderBuffer q).

Definition put_vizRange (v : float * float) (q : ScalarQuantity) : ScalarQuantity :=
  mkScalarQuantity (quantity q) (values q) (dataType q) (dataRange q) v
    (cMap q) (isolinesEnabled q) (isolineWidth q) (isolineDarkness q)
    (hist q) (scalarRenderBuffer q).

Definition put_hist (h : Histogram) (q : ScalarQuantity) : ScalarQuantity :=
  mkScalarQuantity (quantity q) (values q) (dataType q) (dataRange q) (vizRange q)
    (cMap q) (isolinesEnabled q) (isolineWidth q) (isolineDarkness q)
    h (scalarRenderBuffer q).

Definition put_scalarRenderBuffer (b : option AttributeBuffer) (q : ScalarQuantity)
  : ScalarQuantity :=
  mkScalarQuantity (quantity q) (values q) (dataType q) (dataRange q) (vizRange q)
    (cMap q) (isolinesEnabled q) (isolineWidth q) (isolineDarkness q)
    (hist q) b.

(** Assignment to a persisted member writes the cell and its cache. *)
Definition assign_cMap (v : string) (w : World) : World :=
  let q := this w in
  let g := globals w in
  let c := Persistent.assign (cMap q) v in
  mkWorld
    (mkScalarQuantity (quantity q) (values q) (dataType q) (dataRange q) (vizRange q)
       c (isolinesEnabled q) (isolineWidth q) (isolineDarkness q)
       (hist q) (scalarRenderBuffer q))
    (mkGlobals (Persistent.remember (cache_string g) c) (cache_bool g)
       (cache_scaled g) (cache_float g) (effects g) (relative_scale g)).

Definition assign_isolinesEnabled (v : bool) (w : World) : World :=
  let q := this w in
  let g := globals w in
  let c := Persistent.assign (isolinesEnabled q) v in
  mkWorld
    (mkScalarQuantity (quantity q) (values q) (dataType q) (dataRange q) (vizRange q)
       (cMap q) c (isolineWidth q) (isolineDarkness q)
       (hist q) (scalarRenderBuffer q))
    (mkGlobals (cache_string g) (Persistent.remember (cache_bool g) c)
       (cache_scaled g) (cache_float g) (effects g) (relative_scale g)).

Definition assign_isolineWidth (v : ScaledValue) (w : World) : World :=
  let q := this w in
  let g := globals w in
  let c := Persistent.assign (isolineWidth q) v in
  mkWorld
    (mkScalarQuantity (quantity q) (values q) (dataType q) (dataRange q) (vizRange q)
       (cMap q) (isolinesEnabled q) c (isolineDarkness q)
       (hist q) (scalarRenderBuffer q))
    (mkGlobals (cache_string g) (cache_bool g)
       (Persistent.remember (cache_scaled g) c) (cache_float g) (effects g)
       (relative_scale g)).

Definition assign_isolineDarkness (v : float) (w : World) : World :=
  let q := this w in
  let g := globals w in
  let c := Persistent.assign (isolineDarkness q) v in
  mkWorld
    (mkScalarQuantity (quantity q) (values q) (dataType q) (dataRange q) (vizRange q)
       (cMap q) (isolinesEnabled q) (isolineWidth q) c
       (hist q) (scalarRenderBuffer q))
    (mkGlobals (cache_string g) (cache_bool g) (cache_scaled g)
       (Persistent.remember (cache_float g) c) (effects g) (relative_scale g)).

(** ** Computations: state, exceptions, undefined behaviour *)

Inductive exn :=
| runtime_error (what : string)
| size_validation_failed (name : string) (expected actual : nat).

(** Where the model stops: behaviour C++ leaves undefined (a null pointer
    dereferenced, a vector indexed past its end) and reads to which the
    buffer abstraction gives no meaning. *)
Inductive fault :=
| NullDereference
| IndexPastEnd
| BufferMisuse.

Inductive Outcome (A : Type) :=
| Ret (a : A) (w : World)
| Throw (e : exn) (w : World)
| Crash (f : fault).
Arguments Ret {A} _ _.
Arguments Throw {A} _ _.
Arguments Crash {A} _.

Definition M (A : Type) : Type := World -> Outcome A.

Definition bind {A B} (m : M A) (f : A -> M B) : M B := fun w =>
  match m w with
  | Ret a w' => f a w'
  | Throw e w' => Throw e w'
  | Crash u => Crash u
  end.

#[global] Instance M_ret : MRet M := fun A a w => Ret a w.
#[global] Instance M_bind : MBind M := fun A B f m => bind m f.

Notation "'let*' x := m 'in' k" := (bind m (fun x => k))
  (at level 10, x name, m at level 100, k at level 200).

Definition throw {A} (e : exn) : M A := fun w => Throw e w.
Definition crash {A} (f : fault) : M A := fun _ => Crash f.
Definition gets {A} (f : ScalarQuantity -> A) : M A := fun w => Ret (f (this w)) w.
Definition reads {A} (f : World -> A) : M A := fun w => Ret (f w) w.
Definition update (f : World -> World) : M unit := fun w => Ret tt (f w).
Definition when_ (b : bool) (m : M unit) : M unit := if b then m else mret tt.

(** The world a call leaves behind, when it leaves one. *)
Definition world_after {A} (o : Outcome A) : option World :=
  match o with
  | Ret _ w => Some w
  | Throw _ w => Some w
  | Crash _ => None
  end.

Definition requestRedraw : M unit := update (emit RequestRedraw).
Definition quantity_refresh : M unit := update (emit QuantityRefresh).
Definition setUniform (name : string) (v : double) : M unit :=
  update (emit (SetUniform name v)).

(** Modelled from the spec: [validateSize], declared outside this file; it
    fails with a size-mismatch error when the length of the data differs
    from the expected size. *)
Definition validateSize (data : list double) (expected : nat) (name : string) : M unit :=
  if Nat.eqb (length data) expected then mret tt
  else throw (size_validation_failed name expected (length data)).

(** [standardizeArray<double, V>]: the input sequence as a vector of doubles. *)
Definition standardizeArray (data : list double) : list double := data.

(** ** The methods of [ScalarQuantity]

    In the order of the source file. [buildScalarUI] lays out widgets of
    the UI toolkit around the methods below and is not embedded;
    [buildScalarOptionsUI] follows the section, with what its two menu
    items return as inputs. *)

Section Methods.

(** Declared outside this file: the range deriver, the default colormap of
    a data type, and the default of [forceRefill] in the declaration of
    [ensureRenderBuffersFilled]. *)
Variable robustMinMax : list double -> double -> double * double.
Variable defaultColorMap : DataType -> string.
Variable forceRefill_default : bool.

Definition resetMapRange : M unit :=
  let* dt := gets dataType in
  let* dr := gets dataRange in
  match dt with
  | STANDARD => update (with_this (put_vizRange (narrowed dr)))
  | SYMMETRIC =>
      let absRange := std_max (std_abs (fst dr)) (std_abs (snd dr)) in
      update (with_this (put_vizRange (narrowed (PrimFloat.opp absRange, absRange))))
  | MAGNITUDE => update (with_this (put_vizRange (narrowed (0%float, snd dr))))
  end;;
  requestRedraw.

(** The constructor. First the member initialisers; [vizRange] and
    [scalarRenderBuffer] have none: a pair of zeros and a null pointer.
    The histogram is given its colormap and built from the values. *)
Definition initialise (quantity_ : Quantity) (values_ : list double)
    (dataType_ : DataType) (g : Globals) : ScalarQuantity :=
  let dataRange_ := robustMinMax values_ 1e-5%float in
  let cMap_ :=
    Persistent.construct (cache_string g) (uniquePrefix quantity_ +:+ "#cmap")
      (defaultColorMap dataType_) in
  mkScalarQuantity quantity_ values_ dataType_ dataRange_ (0%float, 0%float)
    cMap_
    (Persistent.construct (cache_bool g)
       (uniquePrefix quantity_ +:+ "#isolinesEnabled") false)
    (Persistent.construct (cache_scaled g)
       (uniquePrefix quantity_ +:+ "#isolineWidth")
       (Scaled.absoluteValue
          (PrimFloat.mul (PrimFloat.sub (snd dataRange_) (fst dataRange_)) 0.02%float)))
    (Persistent.construct (cache_float g)
       (uniquePrefix quantity_ +:+ "#isolineDarkness") (to_single 0.7%float))
    (mkHistogram (Persistent.get cMap_) values_)
    None.

Definition construct (quantity_ : Quantity) (values_ : list double)
    (dataType_ : DataType) (g : Globals) : Outcome unit :=
  resetMapRange (mkWorld (initialise quantity_ values_ dataType_ g) g).

Definition addScalarRules (rules : list string) : M (list string) :=
  let rules := rules ++ ["SHADE_COLORMAP_VALUE"] in
  let* enabled := gets (fun q => Persistent.get (isolinesEnabled q)) in
  mret (if enabled then rules ++ ["ISOLINE_STRIPE_VALUECOLOR"] else rules).

Definition ensureRenderBuffersFilled (forceRefill : bool) : M unit :=
  let* buf := gets scalarRenderBuffer in
  let* createdBuffer :=
    match buf with
    | None =>
        update (with_this (put_scalarRenderBuffer
                  (Some (Buffer.generateAttributeBuffer Float_t))));;
        mret true
    | Some _ => mret false
    end in
  when_ (createdBuffer || forceRefill)
    (let* vs := gets values in
     let* buf := gets scalarRenderBuffer in
     match buf with
     | Some b => update (with_this (put_scalarRenderBuffer (Some (Buffer.setData b vs))))
     | None => crash NullDereference
     end).

Definition valuesStoredInMemory : M bool :=
  gets (fun q => negb (Nat.eqb (length (values q)) 0)).

Definition nValueSize : M nat :=
  let* inMemory := valuesStoredInMemory in
  if inMemory then gets (fun q => length (values q))
  else
    let* buf := gets scalarRenderBuffer in
    match buf with
    | None => throw (runtime_error "buffer is not allocated when it should be")
    | Some b =>
        if negb (Buffer.isSet b)
        then throw (runtime_error "buffer is not allocated when it should be")
        else mret (Buffer.getDataSize b)
    end.

Definition getValue (ind : nat) : M float :=
  let* inMemory := valuesStoredInMemory in
  if inMemory then
    let* vs := gets values in
    match vs !! ind with
    | Some v => mret (to_single v)
    | None => crash IndexPastEnd
    end
  else
    let* buf := gets scalarRenderBuffer in
    match buf with
    | None => crash NullDereference
    | Some b =>
        match Buffer.getData_float b ind with
        | Some v => mret v
        | None => crash BufferMisuse
        end
    end.

Definition dataUpdated : M unit :=
  ensureRenderBuffersFilled false;;
  requestRedraw.

Definition updateData (newValues : list double) : M unit :=
  let* n := nValueSize in
  validateSize newValues n "scalar quantity";;
  update (with_this (put_values (standardizeArray newValues)));;
  dataUpdated.

Definition hist_updateColormap : M unit :=
  let* c := gets (fun q => Persistent.get (cMap q)) in
  let* h := gets hist in
  update (with_this (put_hist (mkHistogram c (hist_values h)))).

Definition setColorMap (val : string) : M unit :=
  update (assign_cMap val);;
  hist_updateColormap;;
  quantity_refresh;;
  requestRedraw.

Definition getColorMap : M string :=
  gets (fun q => Persistent.get (cMap q)).

Definition setMapRange (val : double * double) : M unit :=
  update (with_this (put_vizRange (narrowed val)));;
  requestRedraw.

Definition getMapRange : M (double * double) := gets vizRange.

Definition getDataRange : M (double * double) := gets dataRange.

Definition setIsolinesEnabled (newEnabled : bool) : M unit :=
  update (assign_isolinesEnabled newEnabled);;
  quantity_refresh;;
  requestRedraw.

Definition getIsolinesEnabled : M bool :=
  gets (fun q => Persistent.get (isolinesEnabled q)).

Definition setIsolineWidth (size : double) (isRelative : bool) : M unit :=
  update (assign_isolineWidth (Scaled.make size isRelative));;
  let* enabled := gets (fun q => Persistent.get (isolinesEnabled q)) in
  when_ (negb enabled) (setIsolinesEnabled true);;
  requestRedraw.

(** [isolineWidth.get().asAbsolute()]: the call names no scale and hands
    over nothing of the object but the stored width; a relative width is
    multiplied by the scale kept with the globals (see [Scaled.asAbsolute]). *)
Definition getIsolineWidth : M double :=
  reads (fun w =>
    Scaled.asAbsolute (relative_scale (globals w))
      (Persistent.get (isolineWidth (this w)))).

Definition setIsolineDarkness (val : double) : M unit :=
  update (assign_isolineDarkness (to_single val));;
  let* enabled := gets (fun q => Persistent.get (isolinesEnabled q)) in
  when_ (negb enabled) (setIsolinesEnabled true);;
  requestRedraw.

Definition getIsolineDarkness : M double :=
  gets (fun q => Persistent.get (isolineDarkness q)).

Definition setScalarUniforms : M unit :=
  let* viz := gets vizRange in
  setUniform "u_rangeLow" (fst viz);;
  setUniform "u_rangeHigh" (snd viz);;
  let* enabled := gets (fun q => Persistent.get (isolinesEnabled q)) in
  when_ enabled
    (let* width := getIsolineWidth in
     setUniform "u_modLen" width;;
     let* darkness := getIsolineDarkness in
     setUniform "u_modDarkness" darkness).

Definition getScalarRenderBuffer : M (option AttributeBuffer) :=
  ensureRenderBuffersFilled forceRefill_default;;
  gets scalarRenderBuffer.

Definition renderBufferDataExternallyUpdated : M unit :=
  update (with_this (put_values []));;
  requestRedraw.

(** The operations of the public interface. *)
Inductive Call :=
| UpdateData (newValues : list double)
| SetColorMap (val : string)
| GetColorMap
| SetMapRange (val : double * double)
| GetMapRange
| GetDataRange
| ResetMapRange
| SetIsolineWidth (size : double) (isRelative : bool)
| GetIsolineWidth
| SetIsolineDarkness (val : double)
| GetIsolineDarkness
| SetIsolinesEnabled (newEnabled : bool)
| GetIsolinesEnabled
| Size
| GetValue (ind : nat)
| GetScalarRenderBuffer
| RenderBufferDataExternallyUpdated
| AddScalarRules (rules : list string)
| SetScalarUniforms.

Definition exec (c : Call) (w : World) : option World :=
  match c with
  | UpdateData v => world_after (updateData v w)
  | SetColorMap v => world_after (setColorMap v w)
  | GetColorMap => world_after (getColorMap w)
  | SetMapRange v => world_after (setMapRange v w)
  | GetMapRange => world_after (getMapRange w)
  | GetDataRange => world_after (getDataRange w)
  | ResetMapRange => world_after (resetMapRange w)
  | SetIsolineWidth s r => world_after (setIsolineWidth s r w)
  | GetIsolineWidth => world_after (getIsolineWidth w)
  | SetIsolineDarkness v => world_after (setIsolineDarkness v w)
  | GetIsolineDarkness => world_after (getIsolineDarkness w)
  | SetIsolinesEnabled b => world_after (setIsolinesEnabled b w)
  | GetIsolinesEnabled => world_after (getIsolinesEnabled w)
  | Size => world_after (nValueSize w)
  | GetValue i => world_after (getValue i w)
  | GetScalarRenderBuffer => world_after (getScalarRenderBuffer w)
  | RenderBufferDataExternallyUpdated => world_after (renderBufferDataExternallyUpdated w)
  | AddScalarRules r => world_after (addScalarRules r w)
  | SetScalarUniforms => world_after (setScalarUniforms w)
  end.

End Methods.

(** ** A concrete quantity for the closed examples *)

(** Modelled from the spec: an instance of the range deriver [robustMinMax]
    (declared outside this file) for the closed examples: the extremes of
    the data, nothing trimmed, widened by the trim fraction when they
    coincide, and a unit range around zero for no data. *)
Definition plainMinMax (data : list double) (rangeEPS : double) : double * double :=
  match data with
  | [] => (PrimFloat.opp 1, 1)%float
  | x :: rest =>
      let lo := foldr (fun a b => if PrimFloat.ltb a b then a else b) x rest in
      let hi := foldr std_max x rest in
      if PrimFloat.eqb lo hi
      then (PrimFloat.sub lo rangeEPS, PrimFloat.add hi rangeEPS)
      else (lo, hi)
  end.

(** Modelled from the spec: an instance of the colormap registry's default
    per data type. *)
Definition plainColorMap (dt : DataType) : string :=
  match dt with
  | STANDARD => "viridis"
  | SYMMETRIC => "coolwarm"
  | MAGNITUDE => "blues"
  end.

Definition no_globals : Globals := mkGlobals ∅ ∅ ∅ ∅ [] 1%float.

Definition example_values : list double := [1; 2; 3; 4; 5]%float.

(** The world a computation ends in, [w] itself where the model stops. *)
Definition final {A} (m : M A) (w : World) : World :=
  match world_after (m w) with Some w' => w' | None => w end.

(** A quantity "mesh#height" as the constructor leaves it. *)
Definition example_world (values_ : list double) (dt : DataType) : World :=
  let q := mkQuantity "mesh#height" in
  final resetMapRange
    (mkWorld (initialise plainMinMax plainColorMap q values_ dt no_globals) no_globals).

(** The same quantity once its render buffer has been asked for. *)
Definition example_world_with_buffer (values_ : list double) (dt : DataType) : World :=
  final (getScalarRenderBuffer false) (example_world values_ dt).

(** ** Notions used in the statements *)

(** [keeps R m]: whenever [m] ends in a world, by returning or by throwing,
    that world is related by [R] to the one it started in. *)
Definition keeps (R : World -> World -> Prop) {A} (m : M A) : Prop :=
  forall w w', world_after (m w) = Some w' -> R w w'.

(** [f] of the object is the same in both worlds. *)
Definition same {B} (f : ScalarQuantity -> B) (w w' : World) : Prop :=
  f (this w') = f (this w).

(** The numbers that are not below zero: zeros, positive numbers, positive
    infinity (and, vacuously, what is not a number). *)
Definition sign_clear (x : spec_float) : bool :=
  match x with
  | S754_zero s | S754_infinity s | S754_finite s _ _ => negb s
  | S754_nan => true
  end.


(** The exception of a size query that finds neither values nor buffer. *)
Definition buffer_unavailable : exn :=
  runtime_error "buffer is not allocated when it should be".

(** What [ensureRenderBuffersFilled(false)] does: a missing buffer is
    created and filled from the values, an existing one is not touched. *)
Definition filled_if_missing (w : World) : World :=
  match scalarRenderBuffer (this w) with
  | Some _ => w
  | None =>
      with_this (put_scalarRenderBuffer
        (Some (Buffer.setData (Buffer.generateAttributeBuffer Float_t)
                 (values (this w))))) w
  end.

(** After the new value is stored: isolines are switched on through
    [setIsolinesEnabled(true)] when they were off, then a redraw is asked for. *)
Definition enabled_and_redrawn (w : World) : World :=
  emit RequestRedraw
    (if Persistent.get (isolinesEnabled (this w)) then w
     else emit RequestRedraw (emit QuantityRefresh (assign_isolinesEnabled true w))).

(** ** The options menu

    [buildScalarOptionsUI] draws two menu items and acts on those activated
    in this frame; what [ImGui::MenuItem] returned for each is an input. *)
Definition buildScalarOptionsUI (resetActivated enableActivated : bool) : M unit :=
  when_ resetActivated resetMapRange;;
  when_ enableActivated
    (let* enabled := gets (fun q => Persistent.get (isolinesEnabled q)) in
     setIsolinesEnabled (negb enabled)).

(** ** Further notions used in the statements *)

(** A call of the public interface as one computation, its result dropped. *)
Definition invoke (frd : bool) (c : Call) : M unit :=
  let dropped {A} (m : M A) : M unit := bind m (fun _ => mret tt) in
  match c with
  | UpdateData v => updateData v
  | SetColorMap v => setColorMap v
  | GetColorMap => dropped getColorMap
  | SetMapRange v => setMapRange v
  | GetMapRange => dropped getMapRange
  | GetDataRange => dropped getDataRange
  | ResetMapRange => resetMapRange
  | SetIsolineWidth s r => setIsolineWidth s r
  | GetIsolineWidth => dropped getIsolineWidth
  | SetIsolineDarkness v => setIsolineDarkness v
  | GetIsolineDarkness => dropped getIsolineDarkness
  | SetIsolinesEnabled b => setIsolinesEnabled b
  | GetIsolinesEnabled => dropped getIsolinesEnabled
  | Size => dropped nValueSize
  | GetValue i => dropped (getValue i)
  | GetScalarRenderBuffer => dropped (getScalarRenderBuffer frd)
  | RenderBufferDataExternallyUpdated => renderBufferDataExternallyUpdated
  | AddScalarRules r => dropped (addScalarRules r)
  | SetScalarUniforms => setScalarUniforms
  end.

(** The calls that only read. *)
Definition reads_only (c : Call) : bool :=
  match c with
  | GetColorMap | GetMapRange | GetDataRange | GetIsolineWidth
  | GetIsolineDarkness | GetIsolinesEnabled | Size | GetValue _
  | AddScalarRules _ => true
  | _ => false
  end.

(** The calls that can end in an exception or in undefined behaviour. *)
Definition may_fail (c : Call) : bool :=
  match c with
  | UpdateData _ | Size | GetValue _ => true
  | _ => false
  end.

(** The calls that change what is drawn. *)
Definition requests_redraw (c : Call) : bool :=
  match c with
  | UpdateData _ | SetColorMap _ | SetMapRange _ | ResetMapRange
  | SetIsolineWidth _ _ | SetIsolineDarkness _ | SetIsolinesEnabled _
  | RenderBufferDataExternallyUpdated => true
  | _ => false
  end.

(** [f] of the globals is the same in both worlds. *)
Definition same_globals {B} (f : Globals -> B) (w w' : World) : Prop :=
  f (globals w') = f (globals w).

(** A render buffer, once there, has been filled. *)
Definition buffer_filled_if_present (w : World) : Prop :=
  match scalarRenderBuffer (this w) with
  | Some b => Buffer.isSet b = true
  | None => True
  end.

(** The four persistence caches. *)
Definition caches (g : Globals) :=
  (cache_string g, cache_bool g, cache_scaled g, cache_float g).

(** The persisted cells carry the keys the constructor gave them, and a
    cell that was set explicitly agrees with the cache entry under its key. *)
Definition cell_cached {T} (c : PersistentValue T) (cache : gmap string T) : Prop :=
  pv_explicit c = true -> cache !! pv_name c = Some (pv_value c).

Definition coherent (w : World) : Prop :=
  let q := this w in
  let g := globals w in
  let prefix := uniquePrefix (quantity q) in
  (pv_name (cMap q) = prefix +:+ "#cmap" /\
   pv_name (isolinesEnabled q) = prefix +:+ "#isolinesEnabled" /\
   pv_name (isolineWidth q) = prefix +:+ "#isolineWidth" /\
   pv_name (isolineDarkness q) = prefix +:+ "#isolineDarkness") /\
  cell_cached (cMap q) (cache_string g) /\
  cell_cached (isolinesEnabled q) (cache_bool g) /\
  cell_cached (isolineWidth q) (cache_scaled g) /\
  cell_cached (isolineDarkness q) (cache_float g).

(** ** Stepping through computations *)

Ltac run :=
  cbv [bind mbind M_bind mret M_ret update gets reads throw crash when_
       requestRedraw quantity_refresh setUniform world_after];
  cbn [this globals with_this emit put_values put_vizRange put_hist
       put_scalarRenderBuffer values dataType dataRange vizRange quantity cMap
       isolinesEnabled isolineWidth isolineDarkness hist scalarRenderBuffer
       cache_string cache_bool cache_scaled cache_float effects relative_scale
       assign_cMap assign_isolinesEnabled assign_isolineWidth
       assign_isolineDarkness].

(** ** Facts about the numbers *)

Lemma is_nan_spec (x : float) :
  PrimFloat.is_nan x = match Prim2SF x with S754_nan => true | _ => false end.
Proof.
  unfold PrimFloat.is_nan. rewrite FloatAxioms.eqb_spec.
  destruct (Prim2SF x) as [s|s| |s m e]; try destruct s; try reflexivity;
    unfold SFeqb, SFcompare; rewrite Z.compare_refl, Pos.compare_cont_refl;
    reflexivity.
Qed.

(** *** Narrowing to single precision *)

(** Rounding keeps the sign it is given. *)
Lemma binary_round_opp (p em : Z) (s : bool) (m : positive) (e : Z) :
  binary_round p em (negb s) m e = SFopp (binary_round p em s m e).
Proof.
  unfold binary_round. destruct (shl_align m e _) as [mz ez].
  unfold binary_round_aux.
  destruct (shr_fexp p em (Z.pos mz) ez loc_Exact) as [mrs' e'].
  destruct (shr_fexp p em _ e' loc_Exact) as [mrs'' e''].
  destruct (shr_m mrs''); try reflexivity.
  destruct (Z.leb e'' (Z.sub em p)); reflexivity.
Qed.

Lemma SFopp_involutive (x : spec_float) : SFopp (SFopp x) = x.
Proof. destruct x as [s|s| |s m e]; cbn; rewrite ?negb_involutive; reflexivity. Qed.

Lemma opp_involutive (x : float) : PrimFloat.opp (PrimFloat.opp x) = x.
Proof.
  apply Prim2SF_inj. rewrite !FloatAxioms.opp_spec. apply SFopp_involutive.
Qed.

Lemma SF2Prim_opp (y : spec_float) : SF2Prim (SFopp y) = PrimFloat.opp (SF2Prim y).
Proof.
  destruct y as [[|]|[|]| |[|] m e]; try reflexivity.
  cbn [SFopp negb SF2Prim]. cbv zeta. symmetry. apply opp_involutive.
Qed.

Lemma single_of_spec_opp (x : spec_float) :
  single_of_spec (SFopp x) = SFopp (single_of_spec x).
Proof. destruct x as [s|s| |s m e]; try reflexivity. apply binary_round_opp. Qed.

Lemma to_single_opp (x : float) :
  to_single (PrimFloat.opp x) = PrimFloat.opp (to_single x).
Proof.
  unfold to_single. rewrite FloatAxioms.opp_spec, single_of_spec_opp. apply SF2Prim_opp.
Qed.

Lemma binary_round_sign_clear (p em : Z) (m : positive) (e : Z) :
  sign_clear (binary_round p em false m e) = true.
Proof.
  unfold binary_round. destruct (shl_align m e _) as [mz ez].
  unfold binary_round_aux.
  destruct (shr_fexp p em (Z.pos mz) ez loc_Exact) as [mrs' e'].
  destruct (shr_fexp p em _ e' loc_Exact) as [mrs'' e''].
  destruct (shr_m mrs''); try reflexivity.
  destruct (Z.leb e'' (Z.sub em p)); reflexivity.
Qed.

Lemma SFldexp_sign_clear (p em : Z) (x : spec_float) (e : Z) :
  sign_clear x = true -> sign_clear (SFldexp p em x e) = true.
Proof.
  destruct x as [s|s| |s m ex]; cbn; try (intros H; exact H).
  destruct s; [discriminate|]. intros _. apply binary_round_sign_clear.
Qed.

Lemma of_uint63_sign_clear (n : int) : sign_clear (Prim2SF (of_uint63 n)) = true.
Proof.
  rewrite of_uint63_spec. unfold binary_normalize.
  pose proof (to_Z_bounded n) as [H _].
  destruct (to_Z n); [reflexivity | apply binary_round_sign_clear | lia].
Qed.

Lemma SF2Prim_sign_clear (y : spec_float) :
  sign_clear y = true -> sign_clear (Prim2SF (SF2Prim y)) = true.
Proof.
  destruct y as [[|]|[|]| |[|] m e]; try discriminate; intros _;
    try (vm_compute; reflexivity).
  cbn [SF2Prim]. cbv zeta. unfold Z.ldexp. rewrite ldshiftexp_spec.
  apply SFldexp_sign_clear, of_uint63_sign_clear.
Qed.

Lemma to_single_abs_sign_clear (x : float) :
  sign_clear (Prim2SF (to_single (PrimFloat.abs x))) = true.
Proof.
  unfold to_single. apply SF2Prim_sign_clear. rewrite FloatAxioms.abs_spec.
  destruct (Prim2SF x) as [s|s| |s m e]; try reflexivity.
  apply binary_round_sign_clear.
Qed.

Lemma opp_leb_sign_clear (y : float) :
  sign_clear (Prim2SF y) = true ->
  PrimFloat.leb (PrimFloat.opp y) y = negb (PrimFloat.is_nan y).
Proof.
  rewrite is_nan_spec, FloatAxioms.leb_spec, FloatAxioms.opp_spec.
  destruct (Prim2SF y) as [[|]|[|]| |[|] m e]; try discriminate; intros _; reflexivity.
Qed.

Lemma narrowed_symmetric_ordered (a b : float) :
  let r := std_max (std_abs a) (std_abs b) in
  PrimFloat.leb (to_single (PrimFloat.opp r)) (to_single r)
  = negb (PrimFloat.is_nan (to_single r)).
Proof.
  cbv zeta. rewrite to_single_opp. apply opp_leb_sign_clear.
  unfold std_max, std_abs.
  destruct (PrimFloat.ltb _ _); apply to_single_abs_sign_clear.
Qed.

(** ** The colormap window *)

Lemma resetMapRange_runs (w : World) :
  resetMapRange w =
  Ret tt (emit RequestRedraw (with_this (put_vizRange (narrowed
    match dataType (this w) with
    | STANDARD => dataRange (this w)
    | SYMMETRIC =>
        let r := std_max (std_abs (fst (dataRange (this w))))
                         (std_abs (snd (dataRange (this w)))) in
        (PrimFloat.opp r, r)
    | MAGNITUDE => (0%float, snd (dataRange (this w)))
    end)) w)).
Proof. unfold resetMapRange. run. destruct (dataType (this w)); reflexivity. Qed.

Lemma example_world_constructed (values_ : list double) (dt : DataType) :
  construct plainMinMax plainColorMap (mkQuantity "mesh#height") values_ dt no_globals
  = Ret tt (example_world values_ dt).
Proof.
  unfold construct, example_world, final. rewrite resetMapRange_runs. reflexivity.
Qed.

(** C1 fails as stated: [vizRange] is a pair of floats, so the bounds
    [resetMapRange()] stores are narrowed to single precision. A Standard
    quantity with data range (0.1, 0.3): the window is not the data range. *)
Lemma resetMapRange_narrows_dataRange :
  let w := example_world [0.1; 0.3]%float STANDARD in
  dataType (this w) = STANDARD /\
  dataRange (this w) = (0.1, 0.3)%float /\
  exists w1,
    resetMapRange w = Ret tt w1 /\
    vizRange (this w1) = (to_single 0.1, to_single 0.3)%float /\
    vizRange (this w1) <> dataRange (this w).
Proof.
  cbv zeta. split; [reflexivity|]. split; [vm_compute; reflexivity|].
  eexists. split; [apply resetMapRange_runs|]. split; [vm_compute; reflexivity|].
  intros H.
  apply (f_equal (fun p : float * float => PrimFloat.eqb (fst p) 0.1%float)) in H.
  vm_compute in H. discriminate H.
Qed.

(** C1, amended. [resetMapRange()] sets [vizRange] from [dataType] and
    [dataRange] alone, each bound narrowed to single precision: Standard
    gives [dataRange] narrowed; Symmetric gives [(-r, r)] with [r] the larger
    of the magnitudes of the two bounds, narrowed; Magnitude gives
    [(0, dataRange.second)] with the second narrowed. The window it leaves
    does not depend on the window it finds, and a second call leaves the
    window of the first. *)
Theorem resetMapRange_policy (w : World) (stale : float * float) :
  exists w1,
    resetMapRange w = Ret tt w1 /\
    vizRange (this w1) =
      match dataType (this w) with
      | STANDARD =>
          (to_single (fst (dataRange (this w))), to_single (snd (dataRange (this w))))
      | SYMMETRIC =>
          let r := to_single (std_max (std_abs (fst (dataRange (this w))))
                                      (std_abs (snd (dataRange (this w))))) in
          (PrimFloat.opp r, r)
      | MAGNITUDE => (0%float, to_single (snd (dataRange (this w))))
      end /\
    (exists w', resetMapRange (with_this (put_vizRange stale) w) = Ret tt w' /\
                vizRange (this w') = vizRange (this w1)) /\
    (exists w2, resetMapRange w1 = Ret tt w2 /\
                vizRange (this w2) = vizRange (this w1)).
Proof.
  eexists. split; [apply resetMapRange_runs|].
  split; [|split].
  - cbn [this with_this emit vizRange put_vizRange]. unfold narrowed.
    destruct (dataType (this w)); cbn [fst snd]; try reflexivity.
    cbv zeta. rewrite to_single_opp. reflexivity.
  - eexists. split; [apply resetMapRange_runs|]. reflexivity.
  - eexists. split; [apply resetMapRange_runs|]. reflexivity.
Qed.

Ltac unfold_methods :=
  unfold updateData, dataUpdated, ensureRenderBuffersFilled, nValueSize,
    getValue, valuesStoredInMemory, validateSize, standardizeArray,
    setColorMap, hist_updateColormap, getColorMap, setMapRange, getMapRange,
    getDataRange, setIsolineWidth, setIsolineDarkness, setIsolinesEnabled,
    getIsolinesEnabled, getIsolineWidth, getIsolineDarkness, setScalarUniforms,
    getScalarRenderBuffer, renderBufferDataExternallyUpdated, addScalarRules.

(** ** What a call leaves alone *)

Section Frame.

Variable R : World -> World -> Prop.
Hypothesis R_refl : forall w, R w w.
Hypothesis R_trans : forall a b c, R a b -> R b c -> R a c.

Lemma keeps_ret {A} (a : A) : keeps R (mret a).
Proof. intros w w' H. inversion H. subst. apply R_refl. Qed.

Lemma keeps_gets {A} (f : ScalarQuantity -> A) : keeps R (gets f).
Proof. intros w w' H. inversion H. subst. apply R_refl. Qed.

Lemma keeps_reads {A} (f : World -> A) : keeps R (reads f).
Proof. intros w w' H. inversion H. subst. apply R_refl. Qed.

Lemma keeps_throw {A} (e : exn) : keeps R (@throw A e).
Proof. intros w w' H. inversion H. subst. apply R_refl. Qed.

Lemma keeps_crash {A} (f : fault) : keeps R (@crash A f).
Proof. intros w w' H. discriminate H. Qed.

Lemma keeps_update (f : World -> World) :
  (forall w, R w (f w)) -> keeps R (update f).
Proof. intros Hf w w' H. inversion H. subst. apply Hf. Qed.

Lemma keeps_bind {A B} (m : M A) (f : A -> M B) :
  keeps R m -> (forall a, keeps R (f a)) -> keeps R (bind m f).
Proof.
  intros Hm Hf w w'. unfold bind.
  destruct (m w) as [a w1|e w1|u] eqn:E; intros H.
  - apply R_trans with w1; [apply Hm; rewrite E; reflexivity|].
    apply (Hf a). exact H.
  - apply Hm. rewrite E. exact H.
  - discriminate H.
Qed.

Lemma keeps_when (b : bool) (m : M unit) : keeps R m -> keeps R (when_ b m).
Proof. intros Hm. destruct b; [exact Hm | apply keeps_ret]. Qed.

End Frame.

Lemma same_refl {B} (f : ScalarQuantity -> B) w : same f w w.
Proof. reflexivity. Qed.

Lemma same_trans {B} (f : ScalarQuantity -> B) a b c :
  same f a b -> same f b c -> same f a c.
Proof. unfold same. congruence. Qed.

Ltac frame_step :=
  first
    [ apply keeps_bind; [exact (same_trans _) | | intros ?]
    | apply keeps_ret; exact (same_refl _)
    | apply keeps_gets; exact (same_refl _)
    | apply keeps_reads; exact (same_refl _)
    | apply keeps_throw; exact (same_refl _)
    | apply keeps_crash
    | apply keeps_when; [exact (same_refl _) |]
    | apply keeps_update; intros ?; reflexivity
    | match goal with
      | |- keeps _ (match ?x with _ => _ end) => destruct x
      | |- keeps _ (if ?x then _ else _) => destruct x
      end ].

Ltac frame :=
  unfold_methods;
  unfold requestRedraw, quantity_refresh, setUniform, mbind, M_bind;
  repeat frame_step.

(** Only [setMapRange] and [resetMapRange] write the window. *)
Lemma exec_keeps_vizRange (frd : bool) (c : Call) (w w' : World) :
  exec frd c w = Some w' ->
  match c with
  | SetMapRange _ | ResetMapRange => True
  | _ => vizRange (this w') = vizRange (this w)
  end.
Proof.
  destruct c; cbn [exec]; try exact (fun _ => I); intros H;
    refine ((_ : keeps (same vizRange) _) w w' H); frame.
Qed.

Lemma setMapRange_runs (val : double * double) (w : World) :
  setMapRange val w
  = Ret tt (emit RequestRedraw (with_this (put_vizRange (narrowed val)) w)).
Proof. reflexivity. Qed.

(** C2 fails as stated: [setMapRange] stores the pair it is given, narrowed
    and unchecked, so after [setMapRange((1, 0))] on a freshly constructed
    quantity the window has its low end above its high end. *)
Lemma setMapRange_stores_unordered_pair :
  ordered (vizRange (this (example_world example_values STANDARD))) = true /\
  exists w',
    exec false (SetMapRange (1, 0)%float) (example_world example_values STANDARD)
      = Some w' /\
    vizRange (this w') = (1, 0)%float /\
    ordered (vizRange (this w')) = false.
Proof.
  split; [vm_compute; reflexivity|].
  eexists. split; [reflexivity|]. split; vm_compute; reflexivity.
Qed.

(** C2, amended. Whether the window is ordered after a call of the public
    interface: every call other than [setMapRange] and [resetMapRange]
    leaves it as ordered as it was; after [setMapRange(val)] it is ordered
    exactly when [val], narrowed to single precision, is; after
    [resetMapRange()] it is ordered exactly when [dataRange] narrowed is
    (Standard), when the larger magnitude of the bounds, narrowed, is a
    number (Symmetric), when [0 <= dataRange.second] narrowed (Magnitude). *)
Theorem vizRange_order_after_call (frd : bool) (c : Call) (w w' : World) :
  exec frd c w = Some w' ->
  ordered (vizRange (this w')) =
  match c with
  | SetMapRange val => ordered (narrowed val)
  | ResetMapRange =>
      match dataType (this w) with
      | STANDARD => ordered (narrowed (dataRange (this w)))
      | SYMMETRIC =>
          negb (PrimFloat.is_nan
                  (to_single (std_max (std_abs (fst (dataRange (this w))))
                                      (std_abs (snd (dataRange (this w)))))))
      | MAGNITUDE => PrimFloat.leb 0 (to_single (snd (dataRange (this w))))
      end
  | _ => ordered (vizRange (this w))
  end.
Proof.
  intros H.
  destruct c;
    try (apply exec_keeps_vizRange in H; cbv beta iota in H; rewrite H; reflexivity).
  - cbn [exec] in H. rewrite setMapRange_runs in H. inversion H. reflexivity.
  - cbn [exec] in H. rewrite resetMapRange_runs in H. inversion H.
    cbn [this with_this emit vizRange put_vizRange].
    destruct (dataType (this w)); try reflexivity.
    unfold ordered, narrowed; cbn [fst snd]. apply narrowed_symmetric_ordered.
Qed.

Lemma vizRange_order_after_call_witness :
  ordered (vizRange (this (final (setMapRange (0, 1)%float)
                             (example_world example_values STANDARD))))
  = ordered (narrowed (0, 1)%float).
Proof.
  apply (vizRange_order_after_call false (SetMapRange (0, 1)%float)
           (example_world example_values STANDARD)).
  reflexivity.
Defined.

(** ** Size, reads and replacement of the values *)

Lemma nValueSize_runs (w : World) :
  nValueSize w =
  match values (this w) with
  | _ :: _ => Ret (length (values (this w))) w
  | [] =>
      match scalarRenderBuffer (this w) with
      | Some (mkBuffer _ (Some d)) => Ret (length d) w
      | _ => Throw buffer_unavailable w
      end
  end.
Proof.
  unfold nValueSize, valuesStoredInMemory. run.
  destruct (values (this w)) eqn:Hv; cbn; [|rewrite Hv; reflexivity].
  destruct (scalarRenderBuffer (this w)) as [[t [d|]]|]; reflexivity.
Qed.

(** The size is read from the values when there are any. *)
Lemma nValueSize_in_memory (w : World) :
  values (this w) <> [] -> nValueSize w = Ret (length (values (this w))) w.
Proof.
  intros H. rewrite nValueSize_runs. destruct (values (this w)); [contradiction|reflexivity].
Qed.

(** Otherwise it is read from the render buffer, when that has data. *)
Lemma nValueSize_from_buffer (w : World) (b : AttributeBuffer) (d : list float) :
  values (this w) = [] -> scalarRenderBuffer (this w) = Some b -> bufData b = Some d ->
  nValueSize w = Ret (length d) w.
Proof.
  intros Hv Hb Hd. rewrite nValueSize_runs, Hv, Hb.
  destruct b as [t o]. cbn in Hd. rewrite Hd. reflexivity.
Qed.

(** With no values and no buffer, or a buffer never filled, it throws. *)
Lemma nValueSize_unavailable (w : World) :
  values (this w) = [] ->
  (scalarRenderBuffer (this w) = None \/
   exists b, scalarRenderBuffer (this w) = Some b /\ Buffer.isSet b = false) ->
  nValueSize w = Throw buffer_unavailable w.
Proof.
  intros Hv H. rewrite nValueSize_runs, Hv.
  destruct H as [-> | [[t [d|]] [-> Hset]]]; try reflexivity. discriminate Hset.
Qed.

Lemma ensureRenderBuffersFilled_false (w : World) :
  ensureRenderBuffersFilled false w = Ret tt (filled_if_missing w).
Proof.
  unfold ensureRenderBuffersFilled, filled_if_missing. run.
  destruct (scalarRenderBuffer (this w)); reflexivity.
Qed.

Lemma ensureRenderBuffersFilled_true (w : World) :
  exists b,
    ensureRenderBuffersFilled true w
    = Ret tt (with_this (put_scalarRenderBuffer
                (Some (Buffer.setData b (values (this w))))) w).
Proof.
  unfold ensureRenderBuffersFilled. run.
  destruct (scalarRenderBuffer (this w)) as [b|] eqn:Hb;
    [exists b | exists (Buffer.generateAttributeBuffer Float_t)];
    cbn; rewrite ?Hb; reflexivity.
Qed.

Lemma updateData_runs (newValues : list double) (w : World) :
  updateData newValues w =
  match nValueSize w with
  | Ret n _ =>
      if Nat.eqb (length newValues) n
      then Ret tt (emit RequestRedraw
                     (filled_if_missing (with_this (put_values newValues) w)))
      else Throw (size_validation_failed "scalar quantity" n (length newValues)) w
  | Throw e _ => Throw e w
  | Crash u => Crash u
  end.
Proof.
  unfold updateData, dataUpdated, validateSize, standardizeArray, mbind, M_bind.
  unfold bind at 1. rewrite nValueSize_runs.
  destruct (values (this w)) as [|d l] eqn:Hv.
  - destruct (scalarRenderBuffer (this w)) as [[t [d|]]|] eqn:Hb; try reflexivity.
    unfold bind at 1. destruct (Nat.eqb (length newValues) (length d)); [|reflexivity].
    run. rewrite ensureRenderBuffersFilled_false. reflexivity.
  - unfold bind at 1.
    destruct (Nat.eqb (length newValues) (length (d :: l))); [|reflexivity].
    run. rewrite ensureRenderBuffersFilled_false. reflexivity.
Qed.

(** C3. When the length of the new values differs from the size of the
    quantity (the number of values when there are any, the size of the
    render buffer's data otherwise), [updateData] throws the size-validation
    error, and the world it throws in is the world it was called in: the
    values, both ranges, the render buffer and everything else are as
    before. *)
Theorem updateData_size_mismatch (w : World) (newValues : list double) (n : nat) :
  (values (this w) <> [] /\ n = length (values (this w))) \/
  (values (this w) = [] /\
   exists b d, scalarRenderBuffer (this w) = Some b /\ bufData b = Some d /\
               n = length d) ->
  length newValues <> n ->
  updateData newValues w
  = Throw (size_validation_failed "scalar quantity" n (length newValues)) w.
Proof.
  intros Hsize Hlen. rewrite updateData_runs.
  assert (nValueSize w = Ret n w) as ->.
  { destruct Hsize as [[Hv ->] | [Hv (b & d & Hb & Hd & ->)]].
    - apply nValueSize_in_memory, Hv.
    - eapply nValueSize_from_buffer; eassumption. }
  apply Nat.eqb_neq in Hlen. rewrite Hlen. reflexivity.
Qed.

Lemma updateData_size_mismatch_witness :
  updateData [1; 2; 3; 4]%float (example_world example_values STANDARD)
  = Throw (size_validation_failed "scalar quantity" 5 4)
      (example_world example_values STANDARD).
Proof.
  apply (updateData_size_mismatch (example_world example_values STANDARD)
           [1; 2; 3; 4]%float 5).
  - left. split; [discriminate | reflexivity].
  - cbn. lia.
Defined.

(** [updateData] returns exactly when the sizes agree. *)
Lemma updateData_succeeds (newValues : list double) (w : World) :
  nValueSize w = Ret (length newValues) w ->
  updateData newValues w
  = Ret tt (emit RequestRedraw (filled_if_missing (with_this (put_values newValues) w))).
Proof. intros H. rewrite updateData_runs, H, Nat.eqb_refl. reflexivity. Qed.

Lemma updateData_returned (newValues : list double) (w w' : World) :
  updateData newValues w = Ret tt w' ->
  w' = emit RequestRedraw (filled_if_missing (with_this (put_values newValues) w)).
Proof.
  rewrite updateData_runs. destruct (nValueSize w) as [n w1|e w1|u]; try discriminate.
  destruct (Nat.eqb (length newValues) n); [|discriminate].
  intros H. inversion H. reflexivity.
Qed.

Lemma filled_if_missing_this (w : World) :
  values (this (filled_if_missing w)) = values (this w) /\
  dataRange (this (filled_if_missing w)) = dataRange (this w) /\
  vizRange (this (filled_if_missing w)) = vizRange (this w).
Proof.
  unfold filled_if_missing. destruct (scalarRenderBuffer (this w)); repeat split.
Qed.

(** C9. A call of [updateData] that returns has replaced the values by the
    new ones and has left [dataRange] and [vizRange] as they were. *)
Theorem updateData_keeps_ranges (newValues : list double) (w w' : World) :
  updateData newValues w = Ret tt w' ->
  values (this w') = newValues /\
  dataRange (this w') = dataRange (this w) /\
  vizRange (this w') = vizRange (this w).
Proof.
  intros H. apply updateData_returned in H. subst w'.
  cbn [emit this].
  destruct (filled_if_missing_this (with_this (put_values newValues) w))
    as (-> & -> & ->).
  repeat split.
Qed.

Lemma updateData_keeps_ranges_witness :
  let w := example_world example_values SYMMETRIC in
  let w' := final (updateData [9; 8; 7; 6; 50]%float) w in
  values (this w') = [9; 8; 7; 6; 50]%float /\
  dataRange (this w') = dataRange (this w) /\
  vizRange (this w') = vizRange (this w).
Proof.
  apply (updateData_keeps_ranges [9; 8; 7; 6; 50]%float
           (example_world example_values SYMMETRIC)).
  vm_compute. reflexivity.
Defined.

(** An allocated render buffer is not written by [updateData]. *)
Lemma updateData_keeps_allocated_buffer
    (newValues : list double) (w w' : World) (b : AttributeBuffer) :
  scalarRenderBuffer (this w) = Some b ->
  updateData newValues w = Ret tt w' ->
  scalarRenderBuffer (this w') = Some b.
Proof.
  intros Hb H. apply updateData_returned in H. subst w'.
  unfold filled_if_missing. cbn. rewrite Hb. cbn. exact Hb.
Qed.

(** C4 does not hold of the code: [dataUpdated()] asks for
    [ensureRenderBuffersFilled(false)], which leaves an existing buffer as it
    is. Five values [1..5] whose buffer has been filled, then
    [updateData([9, 8, 7, 6, 5])]: the call returns, the values are the new
    ones, the buffer still holds the old ones. *)
Theorem updateData_leaves_buffer_stale :
  let w := example_world_with_buffer example_values STANDARD in
  let newValues := [9; 8; 7; 6; 5]%float in
  exists b w',
    scalarRenderBuffer (this w) = Some b /\
    updateData newValues w = Ret tt w' /\
    values (this w') = newValues /\
    scalarRenderBuffer (this w') = Some b /\
    bufData b = Some [1; 2; 3; 4; 5]%float /\
    bufData b <> Some (map to_single newValues).
Proof.
  cbv zeta. eexists. eexists.
  split; [vm_compute; reflexivity|].
  split; [vm_compute; reflexivity|].
  split; [reflexivity|]. split; [reflexivity|]. split; [reflexivity|].
  intros H.
  apply (f_equal (fun o => match o with
                           | Some (x :: _) => PrimFloat.eqb x 1
                           | _ => false
                           end)) in H.
  vm_compute in H. discriminate H.
Qed.

Lemma getValue_null_buffer (ind : nat) (w : World) :
  values (this w) = [] -> scalarRenderBuffer (this w) = None ->
  getValue ind w = Crash NullDereference.
Proof.
  intros Hv Hb. unfold getValue, valuesStoredInMemory. run.
  rewrite Hv. cbn. rewrite Hb. reflexivity.
Qed.

(** C6 holds of [nValueSize] and not of [getValue]. A quantity whose values
    were cleared before any render buffer was created: [nValueSize()]
    throws "buffer is not allocated when it should be", while [getValue(0)]
    goes through the null [scalarRenderBuffer] without that check. *)
Theorem getValue_misses_buffer_check :
  let w := final renderBufferDataExternallyUpdated
             (example_world example_values STANDARD) in
  values (this w) = [] /\
  scalarRenderBuffer (this w) = None /\
  nValueSize w = Throw (runtime_error "buffer is not allocated when it should be") w /\
  getValue 0 w = Crash NullDereference.
Proof.
  cbv zeta. split; [reflexivity|]. split; [reflexivity|]. split.
  - apply nValueSize_unavailable; [reflexivity | left; reflexivity].
  - apply getValue_null_buffer; reflexivity.
Qed.

(** ** Isolines *)

Lemma setIsolinesEnabled_runs (newEnabled : bool) (w : World) :
  setIsolinesEnabled newEnabled w
  = Ret tt (emit RequestRedraw (emit QuantityRefresh
              (assign_isolinesEnabled newEnabled w))).
Proof. reflexivity. Qed.

Lemma setIsolineWidth_runs (size : double) (isRelative : bool) (w : World) :
  setIsolineWidth size isRelative w
  = Ret tt (enabled_and_redrawn (assign_isolineWidth (Scaled.make size isRelative) w)).
Proof.
  unfold setIsolineWidth, enabled_and_redrawn, setIsolinesEnabled. run.
  destruct (Persistent.get (isolinesEnabled (this w))); reflexivity.
Qed.

Lemma setIsolineDarkness_runs (val : double) (w : World) :
  setIsolineDarkness val w
  = Ret tt (enabled_and_redrawn (assign_isolineDarkness (to_single val) w)).
Proof.
  unfold setIsolineDarkness, enabled_and_redrawn, setIsolinesEnabled. run.
  destruct (Persistent.get (isolinesEnabled (this w))); reflexivity.
Qed.

(** C7. [setIsolineWidth(size, isRelative)] and [setIsolineDarkness(val)]
    store the new value (narrowed to single precision); afterwards isolines
    are enabled: the flag is set to true, through [setIsolinesEnabled(true)],
    when it was false, and its cell is untouched when it was true; the last
    call made is a redraw request. *)
Theorem isoline_setters_enable (w : World) (size val : double) (isRelative : bool) :
  let was := Persistent.get (isolinesEnabled (this w)) in
  (exists w',
     setIsolineWidth size isRelative w = Ret tt w' /\
     Persistent.get (isolineWidth (this w')) = mkScaled isRelative (to_single size) /\
     Persistent.get (isolinesEnabled (this w')) = true /\
     isolinesEnabled (this w') =
       (if was then isolinesEnabled (this w)
        else Persistent.assign (isolinesEnabled (this w)) true) /\
     effects (globals w') =
       effects (globals w)
       ++ (if was then [] else [QuantityRefresh; RequestRedraw])
       ++ [RequestRedraw]) /\
  (exists w',
     setIsolineDarkness val w = Ret tt w' /\
     Persistent.get (isolineDarkness (this w')) = to_single val /\
     Persistent.get (isolinesEnabled (this w')) = true /\
     isolinesEnabled (this w') =
       (if was then isolinesEnabled (this w)
        else Persistent.assign (isolinesEnabled (this w)) true) /\
     effects (globals w') =
       effects (globals w)
       ++ (if was then [] else [QuantityRefresh; RequestRedraw])
       ++ [RequestRedraw]).
Proof.
  cbv zeta. split.
  - eexists. split; [apply setIsolineWidth_runs|].
    unfold enabled_and_redrawn. cbn.
    destruct (Persistent.get (isolinesEnabled (this w))) eqn:E; cbn;
      rewrite ?E, <- ?app_assoc; repeat split.
  - eexists. split; [apply setIsolineDarkness_runs|].
    unfold enabled_and_redrawn. cbn.
    destruct (Persistent.get (isolinesEnabled (this w))) eqn:E; cbn;
      rewrite ?E, <- ?app_assoc; repeat split.
Qed.







(** ** Shader rules *)

(** C10. [addScalarRules(rules)] returns [rules], in order, followed by
    "SHADE_COLORMAP_VALUE", followed by "ISOLINE_STRIPE_VALUECOLOR" exactly
    when isolines are enabled, and nothing else; the object is not changed. *)
Theorem addScalarRules_appends (rules : list string) (w : World) :
  addScalarRules rules w
  = Ret (rules ++ "SHADE_COLORMAP_VALUE"
           :: (if Persistent.get (isolinesEnabled (this w))
               then ["ISOLINE_STRIPE_VALUECOLOR"] else [])) w.
Proof.
  unfold addScalarRules. run.
  destruct (Persistent.get (isolinesEnabled (this w))); [|reflexivity].
  rewrite <- app_assoc. reflexivity.
Qed.

(** ** Buffer-only mode *)

Lemma construct_runs rmm dcm (q : Quantity) (values_ : list double)
    (dt : DataType) (g : Globals) :
  exists w0,
    construct rmm dcm q values_ dt g = Ret tt w0 /\
    values (this w0) = values_ /\
    dataType (this w0) = dt /\
    dataRange (this w0) = rmm values_ 1e-5%float /\
    scalarRenderBuffer (this w0) = None.
Proof.
  unfold construct. rewrite resetMapRange_runs. eexists. split; [reflexivity|].
  repeat split.
Qed.

(** The first request for the render buffer creates it and uploads the values. *)
Lemma getScalarRenderBuffer_fresh (frd : bool) (w : World) :
  scalarRenderBuffer (this w) = None ->
  let b := Buffer.setData (Buffer.generateAttributeBuffer Float_t) (values (this w)) in
  getScalarRenderBuffer frd w
  = Ret (Some b) (with_this (put_scalarRenderBuffer (Some b)) w).
Proof.
  intros Hb. unfold getScalarRenderBuffer, ensureRenderBuffersFilled. run.
  rewrite Hb. reflexivity.
Qed.

Lemma renderBufferDataExternallyUpdated_runs (w : World) :
  renderBufferDataExternallyUpdated w
  = Ret tt (emit RequestRedraw (with_this (put_values []) w)).
Proof. reflexivity. Qed.

(** C8 fails as stated: the constructor does not create the render buffer.
    Five values, then [renderBufferDataExternallyUpdated()] straight away:
    the values are gone and there is no buffer to read a size from, so
    the size query throws. *)
Lemma size_throws_without_buffer :
  exists w0 w1,
    construct plainMinMax plainColorMap (mkQuantity "mesh#height")
      example_values STANDARD no_globals = Ret tt w0 /\
    length (values (this w0)) = 5 /\
    renderBufferDataExternallyUpdated w0 = Ret tt w1 /\
    values (this w1) = [] /\
    nValueSize w1 = Throw (runtime_error "buffer is not allocated when it should be") w1.
Proof.
  eexists. eexists. split; [vm_compute; reflexivity|].
  split; [reflexivity|]. split; [reflexivity|]. split; reflexivity.
Qed.

(** C8, amended. A quantity constructed with [n > 0] values whose render
    buffer has been asked for ([getScalarRenderBuffer()], which creates and
    fills it): after [renderBufferDataExternallyUpdated()] the values are
    empty, [dataRange] and [vizRange] are as the constructor left them, and
    the size query returns [n], the size of the buffer's data. *)
Theorem size_read_through_buffer
    (rmm : list double -> double -> double * double) (dcm : DataType -> string)
    (frd : bool) (q : Quantity) (values_ : list double) (dt : DataType)
    (g : Globals) :
  values_ <> [] ->
  exists w0 w1 w2 b,
    construct rmm dcm q values_ dt g = Ret tt w0 /\
    getScalarRenderBuffer frd w0 = Ret (Some b) w1 /\
    renderBufferDataExternallyUpdated w1 = Ret tt w2 /\
    values (this w2) = [] /\
    dataRange (this w2) = dataRange (this w0) /\
    vizRange (this w2) = vizRange (this w0) /\
    scalarRenderBuffer (this w2) = Some b /\
    Buffer.getDataSize b = length values_ /\
    nValueSize w2 = Ret (length values_) w2.
Proof.
  intros _.
  destruct (construct_runs rmm dcm q values_ dt g) as (w0 & Hc & Hv & _ & _ & Hb).
  exists w0. eexists. eexists. eexists.
  split; [exact Hc|].
  split; [apply getScalarRenderBuffer_fresh, Hb|].
  split; [apply renderBufferDataExternallyUpdated_runs|].
  rewrite Hv. cbn [this with_this emit values put_values].
  repeat split; try apply length_map.
  rewrite nValueSize_runs. cbn. rewrite length_map. reflexivity.
Qed.

Lemma size_read_through_buffer_witness :
  exists w0 w1 w2 b,
    construct plainMinMax plainColorMap (mkQuantity "mesh#height")
      example_values MAGNITUDE no_globals = Ret tt w0 /\
    getScalarRenderBuffer false w0 = Ret (Some b) w1 /\
    renderBufferDataExternallyUpdated w1 = Ret tt w2 /\
    values (this w2) = [] /\
    dataRange (this w2) = dataRange (this w0) /\
    vizRange (this w2) = vizRange (this w0) /\
    scalarRenderBuffer (this w2) = Some b /\
    Buffer.getDataSize b = 5 /\
    nValueSize w2 = Ret 5 w2.
Proof.
  apply (size_read_through_buffer plainMinMax plainColorMap false
           (mkQuantity "mesh#height") example_values MAGNITUDE no_globals).
  discriminate.
Defined.

(** * Further properties of the methods *)

(** ** What the public calls leave alone *)

Ltac frame_by Hrefl Htrans :=
  unfold buildScalarOptionsUI, resetMapRange; unfold_methods;
  unfold requestRedraw, quantity_refresh, setUniform, mbind, M_bind;
  repeat first
    [ apply keeps_bind; [exact Htrans | | intros ?]
    | apply keeps_ret; exact Hrefl
    | apply keeps_gets; exact Hrefl
    | apply keeps_reads; exact Hrefl
    | apply keeps_throw; exact Hrefl
    | apply keeps_crash
    | apply keeps_when; [exact Hrefl |]
    | match goal with
      | |- keeps _ (match ?x with _ => _ end) => destruct x
      | |- keeps _ (if ?x then _ else _) => destruct x
      end ].

Lemma exec_invoke (frd : bool) (c : Call) (w : World) :
  exec frd c w = world_after (invoke frd c w).
Proof.
  destruct c; cbn [exec invoke]; try reflexivity; unfold bind;
    match goal with |- context [match ?o with _ => _ end] => destruct o end;
    reflexivity.
Qed.

Lemma invoke_keeps_same {B} (f : ScalarQuantity -> B) (frd : bool) (c : Call) :
  (forall v, c = UpdateData v -> keeps (same f) (updateData v)) ->
  (forall v q, f (put_values v q) = f q) ->
  (forall v q, f (put_vizRange v q) = f q) ->
  (forall v q, f (put_hist v q) = f q) ->
  (forall v q, f (put_scalarRenderBuffer v q) = f q) ->
  (forall v w, f (this (assign_cMap v w)) = f (this w)) ->
  (forall v w, f (this (assign_isolinesEnabled v w)) = f (this w)) ->
  (forall v w, f (this (assign_isolineWidth v w)) = f (this w)) ->
  (forall v w, f (this (assign_isolineDarkness v w)) = f (this w)) ->
  keeps (same f) (invoke frd c).
Proof.
  intros Hupd Hv Hz Hh Hb Hc He Hw Hd.
  destruct c; cbn [invoke]; try (apply (Hupd _ eq_refl));
    frame_by (same_refl f) (same_trans f);
    apply keeps_update; intros w0; unfold same;
    cbn [this with_this emit]; auto.
Qed.

(** X1. No call of the public interface changes [dataType], [dataRange] or
    the owning quantity: the data range stays the one computed by the
    constructor, whatever is set, reset or uploaded afterwards. *)
Theorem exec_keeps_data_identity (frd : bool) (c : Call) (w w' : World) :
  exec frd c w = Some w' ->
  dataType (this w') = dataType (this w) /\
  dataRange (this w') = dataRange (this w) /\
  quantity (this w') = quantity (this w).
Proof.
  intros H. rewrite exec_invoke in H.
  pose (f := fun q => (dataType q, dataRange q, quantity q)).
  assert (keeps (same f) (invoke frd c)) as K.
  { apply invoke_keeps_same; try reflexivity.
    intros v _. frame_by (same_refl f) (same_trans f);
      apply keeps_update; intros w0; reflexivity. }
  specialize (K w w' H). unfold same, f in K.
  injection K as -> -> ->. repeat split.
Qed.

Lemma exec_keeps_data_identity_witness :
  let w := example_world_with_buffer example_values SYMMETRIC in
  let w' := final (updateData [9; 8; 7; 6; 50]%float) w in
  dataType (this w') = dataType (this w) /\
  dataRange (this w') = dataRange (this w) /\
  quantity (this w') = quantity (this w).
Proof.
  apply (exec_keeps_data_identity false (UpdateData [9; 8; 7; 6; 50]%float)).
  vm_compute. reflexivity.
Defined.

Ltac keeps_same f :=
  frame_by (same_refl f) (same_trans f);
  apply keeps_update; intros ?; reflexivity.

(** X2. The values are written by [updateData] and
    [renderBufferDataExternallyUpdated] only, the render buffer by
    [updateData] and [getScalarRenderBuffer] only: every other call of the
    public interface leaves them as they are. *)
Theorem exec_keeps_values_and_buffer (frd : bool) (c : Call) (w w' : World) :
  exec frd c w = Some w' ->
  match c with
  | UpdateData _ => True
  | RenderBufferDataExternallyUpdated =>
      scalarRenderBuffer (this w') = scalarRenderBuffer (this w)
  | GetScalarRenderBuffer => values (this w') = values (this w)
  | _ =>
      values (this w') = values (this w) /\
      scalarRenderBuffer (this w') = scalarRenderBuffer (this w)
  end.
Proof.
  intros H. rewrite exec_invoke in H.
  destruct c; try exact I; try split;
    first [ refine ((_ : keeps (same values) _) w w' H); cbn [invoke];
            keeps_same values
          | refine ((_ : keeps (same scalarRenderBuffer) _) w w' H); cbn [invoke];
            keeps_same scalarRenderBuffer ].
Qed.

Lemma exec_keeps_values_and_buffer_witness :
  let w := example_world_with_buffer example_values STANDARD in
  let w' := final (setIsolineWidth 0.25%float true) w in
  values (this w') = values (this w) /\
  scalarRenderBuffer (this w') = scalarRenderBuffer (this w).
Proof.
  apply (exec_keeps_values_and_buffer false (SetIsolineWidth 0.25%float true)).
  vm_compute. reflexivity.
Defined.

(** X3. The reading calls ([getColorMap], [getMapRange], [getDataRange],
    [getIsolineWidth], [getIsolineDarkness], [getIsolinesEnabled], the size
    query, [getValue], [addScalarRules]) change nothing at all, whether they
    return or throw: no member is written, nothing is logged or cached, and
    the size query and [getValue] do not create the render buffer. *)
Theorem reading_calls_change_nothing (frd : bool) (c : Call) (w w' : World) :
  reads_only c = true -> exec frd c w = Some w' -> w' = w.
Proof.
  intros Hc H. rewrite exec_invoke in H.
  assert (forall a b c : World, b = a -> c = b -> c = a) as Htrans by congruence.
  refine ((_ : keeps (fun a b => b = a) (invoke frd c)) w w' H).
  destruct c; try discriminate Hc; cbn [invoke];
    frame_by (fun a : World => eq_refl a) Htrans.
Qed.

Lemma reading_calls_change_nothing_witness :
  let w := final renderBufferDataExternallyUpdated
             (example_world example_values STANDARD) in
  final nValueSize w = w.
Proof.
  apply (reading_calls_change_nothing false Size);
    [reflexivity | vm_compute; reflexivity].
Defined.

Lemma same_globals_refl {B} (f : Globals -> B) w : same_globals f w w.
Proof. reflexivity. Qed.

Lemma same_globals_trans {B} (f : Globals -> B) a b c :
  same_globals f a b -> same_globals f b c -> same_globals f a c.
Proof. unfold same_globals. congruence. Qed.

Ltac keeps_same_globals f :=
  frame_by (same_globals_refl f) (same_globals_trans f);
  apply keeps_update; intros ?; reflexivity.

(** X4. The persistence caches are written by the four setters of
    persisted members only, each in the cache of its own type:
    [setColorMap] the string cache, [setIsolinesEnabled] the boolean cache,
    [setIsolineWidth] and [setIsolineDarkness] their own cache and, through
    the implicit enabling, the boolean cache. Every other call, [setMapRange]
    and [resetMapRange] among them, leaves all four caches as they are: the
    colormap window is not persisted. *)
Theorem exec_writes_own_cache (frd : bool) (c : Call) (w w' : World) :
  exec frd c w = Some w' ->
  let g := globals w in
  let g' := globals w' in
  match c with
  | SetColorMap _ =>
      (cache_bool g', cache_scaled g', cache_float g')
      = (cache_bool g, cache_scaled g, cache_float g)
  | SetIsolinesEnabled _ =>
      (cache_string g', cache_scaled g', cache_float g')
      = (cache_string g, cache_scaled g, cache_float g)
  | SetIsolineWidth _ _ =>
      (cache_string g', cache_float g') = (cache_string g, cache_float g)
  | SetIsolineDarkness _ =>
      (cache_string g', cache_scaled g') = (cache_string g, cache_scaled g)
  | _ => caches g' = caches g
  end.
Proof.
  intros H. rewrite exec_invoke in H. cbv zeta.
  destruct c;
    match goal with
    | |- caches (globals w') = _ =>
        refine ((_ : keeps (same_globals caches) _) w w' H)
    | |- (?a (globals w'), ?b (globals w'), ?c (globals w')) = _ =>
        refine ((_ : keeps (same_globals (fun g => (a g, b g, c g))) _) w w' H)
    | |- (?a (globals w'), ?b (globals w')) = _ =>
        refine ((_ : keeps (same_globals (fun g => (a g, b g))) _) w w' H)
    end;
    cbn [invoke];
    match goal with
    | |- keeps (same_globals ?f) _ => keeps_same_globals f
    end.
Qed.

Lemma exec_writes_own_cache_witness :
  let w := example_world example_values STANDARD in
  let w' := final (setMapRange (2, 3)%float) w in
  caches (globals w') = caches (globals w).
Proof.
  apply (exec_writes_own_cache false (SetMapRange (2, 3)%float)).
  vm_compute. reflexivity.
Defined.

(** ** Which calls can fail, and what the others log *)

Lemma getScalarRenderBuffer_runs (frd : bool) (w : World) :
  exists b w',
    getScalarRenderBuffer frd w = Ret (Some b) w' /\
    scalarRenderBuffer (this w') = Some b /\
    values (this w') = values (this w) /\
    globals w' = globals w /\
    (scalarRenderBuffer (this w) = None \/ frd = true ->
     bufData b = Some (map to_single (values (this w)))) /\
    (frd = false -> forall b0, scalarRenderBuffer (this w) = Some b0 -> w' = w).
Proof.
  unfold getScalarRenderBuffer, mbind, M_bind, bind.
  destruct frd.
  - destruct (ensureRenderBuffersFilled_true w) as [b0 ->].
    eexists. eexists. split; [reflexivity|].
    repeat split; try discriminate.
  - rewrite ensureRenderBuffersFilled_false. unfold filled_if_missing.
    destruct (scalarRenderBuffer (this w)) as [b0|] eqn:Hb.
    + exists b0, w. unfold gets. rewrite Hb. repeat split.
      intros [H|H]; discriminate H.
    + eexists. eexists. split; [reflexivity|]. repeat split.
      intros _ b0 H. discriminate H.
Qed.

Lemma filled_if_missing_globals (w : World) :
  globals (filled_if_missing w) = globals w.
Proof.
  unfold filled_if_missing. destruct (scalarRenderBuffer (this w)); reflexivity.
Qed.

(** X5. Only [updateData], the size query and [getValue] can fail: every
    other call of the public interface returns normally in every world.
    [updateData] and the size query fail by throwing only; they never run
    into undefined behaviour. *)
Theorem only_three_calls_fail (frd : bool) (c : Call) (w : World) :
  (may_fail c = false -> exists w', invoke frd c w = Ret tt w') /\
  (forall v u, updateData v w <> Crash u) /\
  (forall u, nValueSize w <> Crash u).
Proof.
  assert (forall u, nValueSize w <> Crash u) as Hsize.
  { intros u. rewrite nValueSize_runs.
    destruct (values (this w)); [|discriminate].
    destruct (scalarRenderBuffer (this w)) as [[t [d|]]|]; discriminate. }
  split; [|split; [|exact Hsize]].
  - intros Hc. destruct c; try discriminate Hc; cbn [invoke];
      try (eexists; unfold bind; reflexivity).
    + rewrite resetMapRange_runs. eexists. reflexivity.
    + rewrite setIsolineWidth_runs. eexists. reflexivity.
    + rewrite setIsolineDarkness_runs. eexists. reflexivity.
    + destruct (getScalarRenderBuffer_runs frd w) as (b & w' & H & _).
      unfold bind. rewrite H. eexists. reflexivity.
    + unfold setScalarUniforms, getIsolineWidth, getIsolineDarkness. run.
      destruct (Persistent.get (isolinesEnabled (this w))); eexists; reflexivity.
  - intros v u. rewrite updateData_runs.
    destruct (nValueSize w) as [n w1|e w1|u1] eqn:E.
    + destruct (Nat.eqb (length v) n); discriminate.
    + discriminate.
    + exfalso. exact (Hsize u1 eq_refl).
Qed.

Lemma only_three_calls_fail_witness :
  exists w',
    invoke true GetScalarRenderBuffer
      (final renderBufferDataExternallyUpdated (example_world example_values STANDARD))
    = Ret tt w'.
Proof.
  apply (only_three_calls_fail true GetScalarRenderBuffer). reflexivity.
Defined.

(** X6. Every call that changes what is drawn ([updateData] when it
    returns, [setColorMap], [setMapRange], [resetMapRange], the isoline
    setters, [renderBufferDataExternallyUpdated]) only appends to the log of
    outside calls, and the last call it makes is a redraw request. *)
Theorem drawing_calls_end_with_redraw (frd : bool) (c : Call) (w w' : World) :
  requests_redraw c = true ->
  invoke frd c w = Ret tt w' ->
  exists l, effects (globals w') = effects (globals w) ++ l ++ [RequestRedraw].
Proof.
  intros Hc H. destruct c; try discriminate Hc; cbn [invoke] in H.
  - apply updateData_returned in H. subst w'. exists [].
    cbn [emit globals effects]. rewrite filled_if_missing_globals. reflexivity.
  - inversion H. exists [QuantityRefresh]. cbn. rewrite <- app_assoc. reflexivity.
  - inversion H. exists []. reflexivity.
  - rewrite resetMapRange_runs in H. inversion H. exists []. reflexivity.
  - rewrite setIsolineWidth_runs in H. inversion H. unfold enabled_and_redrawn. cbn.
    destruct (Persistent.get (isolinesEnabled (this w)));
      [exists [] | exists [QuantityRefresh; RequestRedraw]]; cbn;
      rewrite <- ?app_assoc; reflexivity.
  - rewrite setIsolineDarkness_runs in H. inversion H. unfold enabled_and_redrawn. cbn.
    destruct (Persistent.get (isolinesEnabled (this w)));
      [exists [] | exists [QuantityRefresh; RequestRedraw]]; cbn;
      rewrite <- ?app_assoc; reflexivity.
  - inversion H. exists [QuantityRefresh]. cbn. rewrite <- app_assoc. reflexivity.
  - inversion H. exists []. reflexivity.
Qed.

Lemma drawing_calls_end_with_redraw_witness :
  let w := example_world example_values STANDARD in
  exists l,
    effects (globals (final (setColorMap "magma") w))
    = effects (globals w) ++ l ++ [RequestRedraw].
Proof.
  apply (drawing_calls_end_with_redraw false (SetColorMap "magma")
           (example_world example_values STANDARD));
    [reflexivity | vm_compute; reflexivity].
Defined.

(** ** The render buffer *)

Lemma updateData_thrown (newValues : list double) (w w' : World) (e : exn) :
  updateData newValues w = Throw e w' -> w' = w.
Proof.
  rewrite updateData_runs. destruct (nValueSize w) as [n w1|e1 w1|u]; try discriminate.
  - destruct (Nat.eqb (length newValues) n); [discriminate|].
    intros H. inversion H. reflexivity.
  - intros H. inversion H. reflexivity.
Qed.

Lemma invoke_keeps_buffer (frd : bool) (c : Call) :
  match c with
  | UpdateData _ | GetScalarRenderBuffer => True
  | _ => keeps (same scalarRenderBuffer) (invoke frd c)
  end.
Proof. destruct c; try exact I; cbn [invoke]; keeps_same scalarRenderBuffer. Qed.

Lemma filled_if_missing_filled (w : World) :
  buffer_filled_if_present w -> buffer_filled_if_present (filled_if_missing w).
Proof.
  unfold buffer_filled_if_present, filled_if_missing.
  destruct (scalarRenderBuffer (this w)) as [b|] eqn:Hb; cbn; [rewrite Hb|]; auto.
Qed.

(** X7. A render buffer, once there, has been filled: the constructor
    creates none, and every call of the public interface that finds the
    object so leaves it so. Hence the size query throws exactly when there
    are no values and the render buffer was never created; a buffer that
    exists but was never filled does not occur. *)
Theorem buffer_filled_once_present
    (rmm : list double -> double -> double * double) (dcm : DataType -> string)
    (frd : bool) :
  (forall q values_ dt g w0,
     construct rmm dcm q values_ dt g = Ret tt w0 -> buffer_filled_if_present w0) /\
  (forall c w w',
     buffer_filled_if_present w -> exec frd c w = Some w' ->
     buffer_filled_if_present w') /\
  (forall w,
     buffer_filled_if_present w ->
     (exists e, nValueSize w = Throw e w) <->
     values (this w) = [] /\ scalarRenderBuffer (this w) = None).
Proof.
  split; [|split].
  - intros q values_ dt g w0 H.
    destruct (construct_runs rmm dcm q values_ dt g) as (w1 & Hc & _ & _ & _ & Hb).
    rewrite Hc in H. inversion H. subst w1.
    unfold buffer_filled_if_present. rewrite Hb. exact I.
  - intros c w w' Hw H. rewrite exec_invoke in H.
    pose proof (invoke_keeps_buffer frd c) as K.
    destruct c;
      try (specialize (K w w' H); unfold same in K;
           unfold buffer_filled_if_present in *; rewrite K; exact Hw).
    + cbn [invoke] in H.
      destruct (updateData newValues w) as [[] w1|e w1|u] eqn:E; inversion H; subst w1.
      * apply updateData_returned in E. subst w'.
        apply (filled_if_missing_filled (with_this (put_values newValues) w)), Hw.
      * apply updateData_thrown in E. subst w'. exact Hw.
    + cbn [invoke] in H.
      destruct (getScalarRenderBuffer_runs frd w) as (b & w1 & E & Hb & _ & _ & Hnew & Hold).
      unfold bind in H. rewrite E in H. inversion H. subst w1.
      unfold buffer_filled_if_present in *. rewrite Hb.
      destruct frd.
      * unfold Buffer.isSet. rewrite Hnew; [reflexivity | right; reflexivity].
      * destruct (scalarRenderBuffer (this w)) as [b0|] eqn:Hb0.
        -- rewrite (Hold eq_refl b0 eq_refl) in Hb. rewrite Hb0 in Hb.
           inversion Hb. subst b0. exact Hw.
        -- unfold Buffer.isSet. rewrite Hnew; [reflexivity | left; reflexivity].
  - intros w Hw. rewrite nValueSize_runs. unfold buffer_filled_if_present in Hw.
    destruct (values (this w)) as [|x l].
    + destruct (scalarRenderBuffer (this w)) as [[t [d|]]|].
      * split; [intros [e H]; discriminate H | intros [_ H]; discriminate H].
      * discriminate Hw.
      * split; [intros _; split; reflexivity | intros _; eexists; reflexivity].
    + split; [intros [e H]; discriminate H | intros [H _]; discriminate H].
Qed.

Lemma buffer_filled_once_present_witness :
  buffer_filled_if_present
    (final (updateData [9; 8; 7; 6; 5]%float) (example_world example_values STANDARD)).
Proof.
  apply (proj1 (proj2 (buffer_filled_once_present plainMinMax plainColorMap false))
           (UpdateData [9; 8; 7; 6; 5]%float) (example_world example_values STANDARD)).
  - exact I.
  - vm_compute. reflexivity.
Defined.

Lemma getScalarRenderBuffer_present (w : World) (b : AttributeBuffer) :
  scalarRenderBuffer (this w) = Some b ->
  getScalarRenderBuffer false w = Ret (Some b) w.
Proof.
  intros Hb. unfold getScalarRenderBuffer, mbind, M_bind, bind.
  rewrite ensureRenderBuffersFilled_false. unfold filled_if_missing, gets.
  rewrite Hb. cbn. rewrite Hb. reflexivity.
Qed.

(** X8. [getScalarRenderBuffer()] never returns a null pointer: it returns
    the object's buffer, without touching the values or the globals. A buffer
    it had to create holds the values narrowed to single precision. Asking
    again returns the same buffer and changes nothing. *)
Theorem getScalarRenderBuffer_stable (frd : bool) (w : World) :
  exists b w1,
    getScalarRenderBuffer frd w = Ret (Some b) w1 /\
    scalarRenderBuffer (this w1) = Some b /\
    values (this w1) = values (this w) /\
    globals w1 = globals w /\
    (scalarRenderBuffer (this w) = None ->
     bufData b = Some (map to_single (values (this w)))) /\
    getScalarRenderBuffer frd w1 = Ret (Some b) w1.
Proof.
  destruct frd.
  - unfold getScalarRenderBuffer, mbind, M_bind, bind.
    unfold ensureRenderBuffersFilled. run.
    destruct (scalarRenderBuffer (this w)) as [b0|] eqn:Hb; cbn; rewrite ?Hb;
      eexists; eexists; (split; [reflexivity|]); repeat split;
      intros H; discriminate H.
  - destruct (scalarRenderBuffer (this w)) as [b0|] eqn:Hb.
    + exists b0, w. rewrite (getScalarRenderBuffer_present w b0 Hb).
      repeat split; try assumption; intros H; discriminate H.
    + eexists. eexists. split; [apply getScalarRenderBuffer_fresh, Hb|].
      repeat split; apply getScalarRenderBuffer_present; reflexivity.
Qed.

Lemma getScalarRenderBuffer_stable_witness :
  exists b w1,
    getScalarRenderBuffer false (example_world example_values STANDARD)
      = Ret (Some b) w1 /\
    bufData b = Some (map to_single example_values).
Proof.
  destruct (getScalarRenderBuffer_stable false (example_world example_values STANDARD))
    as (b & w1 & H & _ & _ & _ & Hd & _).
  exists b, w1. split; [exact H | apply Hd; reflexivity].
Defined.

(** ** Reading and replacing the values *)

Lemma getValue_in_memory (ind : nat) (w : World) :
  values (this w) <> [] ->
  getValue ind w =
  match values (this w) !! ind with
  | Some v => Ret (to_single v) w
  | None => Crash IndexPastEnd
  end.
Proof.
  intros Hv. unfold getValue, valuesStoredInMemory. run.
  destruct (values (this w)) as [|x l] eqn:E; [contradiction|]. cbn [length Nat.eqb negb].
  rewrite E. destruct ((x :: l) !! ind); reflexivity.
Qed.

Lemma getValue_from_buffer (ind : nat) (w : World) (b : AttributeBuffer) :
  values (this w) = [] -> scalarRenderBuffer (this w) = Some b ->
  getValue ind w =
  match Buffer.getData_float b ind with
  | Some v => Ret v w
  | None => Crash BufferMisuse
  end.
Proof.
  intros Hv Hb. unfold getValue, valuesStoredInMemory. run.
  rewrite Hv. cbn. rewrite Hb. destruct (Buffer.getData_float b ind); reflexivity.
Qed.

(** X9. While there are values, [getValue(ind)] reads them and not the
    render buffer: below the size it returns the entry narrowed to single
    precision, and at or past the size it indexes the vector out of bounds,
    without any check. *)
Theorem getValue_reads_memory (ind : nat) (w : World) :
  values (this w) <> [] ->
  (forall v, values (this w) !! ind = Some v -> getValue ind w = Ret (to_single v) w) /\
  (length (values (this w)) <= ind -> getValue ind w = Crash IndexPastEnd).
Proof.
  intros Hv. rewrite (getValue_in_memory ind w Hv). split.
  - intros v ->. reflexivity.
  - intros Hle. rewrite (proj2 (lookup_ge_None (values (this w)) ind) Hle). reflexivity.
Qed.

Lemma getValue_reads_memory_witness :
  let w := example_world_with_buffer example_values STANDARD in
  getValue 2 w = Ret 3%float w /\ getValue 5 w = Crash IndexPastEnd.
Proof.
  cbv zeta.
  destruct (getValue_reads_memory 2 (example_world_with_buffer example_values STANDARD))
    as [Hin _]; [discriminate|].
  destruct (getValue_reads_memory 5 (example_world_with_buffer example_values STANDARD))
    as [_ Hout]; [discriminate|].
  split; [apply (Hin 3%float); reflexivity | apply Hout; vm_compute; lia].
Defined.

(** X10. Reads agree across the switch to buffer-only mode. With values in
    memory and a render buffer freshly filled from them (created by this
    request, or refilled by it), an entry read before
    [renderBufferDataExternallyUpdated()] and the same entry read after it,
    now through the buffer, are the same number. *)
Theorem reads_agree_in_buffer_only_mode (frd : bool) (ind : nat) (w : World) (v : double) :
  values (this w) !! ind = Some v ->
  scalarRenderBuffer (this w) = None \/ frd = true ->
  exists b w1 w2,
    getValue ind w = Ret (to_single v) w /\
    getScalarRenderBuffer frd w = Ret (Some b) w1 /\
    renderBufferDataExternallyUpdated w1 = Ret tt w2 /\
    values (this w2) = [] /\
    getValue ind w2 = Ret (to_single v) w2.
Proof.
  intros Hv Hfresh.
  assert (values (this w) <> []) as Hne.
  { intros E. rewrite E in Hv. discriminate Hv. }
  destruct (getScalarRenderBuffer_runs frd w)
    as (b & w1 & Hget & Hb & Hvals & _ & Hnew & _).
  exists b, w1. eexists.
  split; [rewrite (getValue_in_memory ind w Hne), Hv; reflexivity|].
  split; [exact Hget|].
  split; [apply renderBufferDataExternallyUpdated_runs|].
  split; [reflexivity|].
  rewrite (getValue_from_buffer ind _ b); [|reflexivity|exact Hb].
  unfold Buffer.getData_float. rewrite (Hnew Hfresh).
  rewrite list_lookup_fmap, Hv. reflexivity.
Qed.

Lemma reads_agree_in_buffer_only_mode_witness :
  exists b w1 w2,
    getValue 3 (example_world example_values MAGNITUDE)
      = Ret (to_single 4) (example_world example_values MAGNITUDE) /\
    getScalarRenderBuffer false (example_world example_values MAGNITUDE)
      = Ret (Some b) w1 /\
    renderBufferDataExternallyUpdated w1 = Ret tt w2 /\
    values (this w2) = [] /\
    getValue 3 w2 = Ret (to_single 4) w2.
Proof.
  apply (reads_agree_in_buffer_only_mode false 3
           (example_world example_values MAGNITUDE) 4%float).
  - reflexivity.
  - left. reflexivity.
Defined.

Lemma nValueSize_returned (w w1 : World) (n : nat) :
  nValueSize w = Ret n w1 -> w1 = w.
Proof.
  rewrite nValueSize_runs. destruct (values (this w)).
  - destruct (scalarRenderBuffer (this w)) as [[t [d|]]|]; intros H; inversion H;
      reflexivity.
  - intros H. inversion H. reflexivity.
Qed.

(** X11. A call of [updateData] that returns does not change the size of
    the quantity: the size query gave the length of the new values before
    the call, and gives it after the call. *)
Theorem updateData_keeps_size (newValues : list double) (w w' : World) :
  updateData newValues w = Ret tt w' ->
  nValueSize w = Ret (length newValues) w /\
  nValueSize w' = Ret (length newValues) w'.
Proof.
  intros H.
  assert (nValueSize w = Ret (length newValues) w) as Hn.
  { rewrite updateData_runs in H.
    destruct (nValueSize w) as [n w1|e w1|u] eqn:E; try discriminate H.
    destruct (Nat.eqb (length newValues) n) eqn:El; [|discriminate H].
    apply Nat.eqb_eq in El. apply nValueSize_returned in E. subst. reflexivity. }
  split; [exact Hn|].
  apply updateData_returned in H. subst w'.
  destruct newValues as [|x l].
  - (* no new values: the size was 0, read from the buffer, which is kept *)
    rewrite nValueSize_runs in Hn. rewrite nValueSize_runs.
    cbn [emit this]. unfold filled_if_missing.
    cbn [with_this this put_values scalarRenderBuffer].
    destruct (values (this w)) as [|y l'] eqn:Hv.
    + destruct (scalarRenderBuffer (this w)) as [[t [d|]]|] eqn:Hb; try discriminate Hn.
      cbn. rewrite Hb. inversion Hn as [E']. cbn. rewrite E'. reflexivity.
    + inversion Hn.
  - rewrite nValueSize_in_memory; cbn [emit this];
      destruct (filled_if_missing_this (with_this (put_values (x :: l)) w)) as [-> _];
      [reflexivity | discriminate].
Qed.

Lemma updateData_keeps_size_witness :
  let w := final renderBufferDataExternallyUpdated
             (example_world_with_buffer example_values STANDARD) in
  let w' := final (updateData [9; 8; 7; 6; 5]%float) w in
  nValueSize w = Ret 5 w /\ nValueSize w' = Ret 5 w'.
Proof.
  apply (updateData_keeps_size [9; 8; 7; 6; 5]%float
           (final renderBufferDataExternallyUpdated
              (example_world_with_buffer example_values STANDARD))).
  vm_compute. reflexivity.
Defined.

(** X12. What [updateData] stores is what [getValue] reads: after a call
    of [updateData(newValues)] that returns, [getValue(ind)] returns
    [newValues[ind]] narrowed to single precision for every index of
    [newValues], also when the quantity was in buffer-only mode before. *)
Theorem updateData_then_getValue
    (newValues : list double) (w w' : World) (ind : nat) (v : double) :
  updateData newValues w = Ret tt w' ->
  newValues !! ind = Some v ->
  getValue ind w' = Ret (to_single v) w'.
Proof.
  intros H Hv. apply updateData_returned in H.
  assert (values (this w') = newValues) as Hvals.
  { subst w'. cbn [emit this].
    destruct (filled_if_missing_this (with_this (put_values newValues) w)) as [-> _].
    reflexivity. }
  rewrite getValue_in_memory; rewrite Hvals.
  - rewrite Hv. reflexivity.
  - intros E. rewrite E in Hv. discriminate Hv.
Qed.

Lemma updateData_then_getValue_witness :
  let w := final renderBufferDataExternallyUpdated
             (example_world_with_buffer example_values STANDARD) in
  let w' := final (updateData [9; 8; 7; 6; 5]%float) w in
  getValue 1 w' = Ret (to_single 8) w'.
Proof.
  apply (updateData_then_getValue [9; 8; 7; 6; 5]%float
           (final renderBufferDataExternallyUpdated
              (example_world_with_buffer example_values STANDARD))).
  - vm_compute. reflexivity.
  - reflexivity.
Defined.

(** X13. When no render buffer exists yet, a call of [updateData] that
    returns creates it and uploads the new values, not the old ones. *)
Theorem updateData_first_upload (newValues : list double) (w w' : World) :
  scalarRenderBuffer (this w) = None ->
  updateData newValues w = Ret tt w' ->
  exists b,
    scalarRenderBuffer (this w') = Some b /\
    bufData b = Some (map to_single newValues).
Proof.
  intros Hb H. apply updateData_returned in H. subst w'.
  unfold filled_if_missing. cbn. rewrite Hb. cbn.
  eexists. split; reflexivity.
Qed.

Lemma updateData_first_upload_witness :
  exists b,
    scalarRenderBuffer
      (this (final (updateData [9; 8; 7; 6; 5]%float)
               (example_world example_values STANDARD))) = Some b /\
    bufData b = Some (map to_single [9; 8; 7; 6; 5]%float).
Proof.
  apply (updateData_first_upload [9; 8; 7; 6; 5]%float
           (example_world example_values STANDARD)).
  - reflexivity.
  - vm_compute. reflexivity.
Defined.

(** X14. With no values and no filled render buffer there is no size to
    validate against: [updateData] throws the size query's
    "buffer is not allocated when it should be", whatever the new values,
    and changes nothing; new values cannot bring such a quantity back. *)
Theorem updateData_without_size (newValues : list double) (w : World) :
  values (this w) = [] ->
  (scalarRenderBuffer (this w) = None \/
   exists b, scalarRenderBuffer (this w) = Some b /\ Buffer.isSet b = false) ->
  updateData newValues w = Throw buffer_unavailable w.
Proof.
  intros Hv Hb. rewrite updateData_runs, (nValueSize_unavailable w Hv Hb). reflexivity.
Qed.

Lemma updateData_without_size_witness :
  let w := final renderBufferDataExternallyUpdated
             (example_world example_values STANDARD) in
  updateData [9; 8; 7; 6; 5]%float w = Throw buffer_unavailable w.
Proof.
  apply updateData_without_size; [reflexivity | left; reflexivity].
Defined.

(** ** Colormap, isolines and uniforms *)

(** X15. [setColorMap(val)] and [getColorMap()] round-trip: the colormap
    read back is [val]; the histogram is recoloured with it and keeps its
    values; [val] is persisted in the string cache under the cell's key; the
    owner is refreshed and then a redraw is requested; the values, both
    ranges and the render buffer are as before. *)
Theorem setColorMap_round_trip (val : string) (w : World) :
  exists w',
    setColorMap val w = Ret tt w' /\
    getColorMap w' = Ret val w' /\
    hist (this w') = mkHistogram val (hist_values (hist (this w))) /\
    cache_string (globals w') !! pv_name (cMap (this w)) = Some val /\
    pv_name (cMap (this w')) = pv_name (cMap (this w)) /\
    effects (globals w') = effects (globals w) ++ [QuantityRefresh; RequestRedraw] /\
    (values (this w'), dataRange (this w'), vizRange (this w'), scalarRenderBuffer (this w'))
    = (values (this w), dataRange (this w), vizRange (this w), scalarRenderBuffer (this w)).
Proof.
  eexists. split; [reflexivity|]. cbn.
  repeat split.
  - apply lookup_insert_eq.
  - rewrite <- app_assoc. reflexivity.
Qed.

(** X16. The isoline switch shows in the shader rules. After
    [setIsolinesEnabled(b)] the flag reads back as [b] and [addScalarRules]
    appends "ISOLINE_STRIPE_VALUECOLOR" exactly when [b] is true; after
    [setIsolineWidth] or [setIsolineDarkness] the rule is always appended,
    whatever the flag was before. *)
Theorem isolines_show_in_rules
    (rules : list string) (b : bool) (size val : double) (isRelative : bool)
    (w : World) :
  (exists w',
     setIsolinesEnabled b w = Ret tt w' /\
     getIsolinesEnabled w' = Ret b w' /\
     addScalarRules rules w'
     = Ret (rules ++ "SHADE_COLORMAP_VALUE"
              :: (if b then ["ISOLINE_STRIPE_VALUECOLOR"] else [])) w') /\
  (exists w',
     setIsolineWidth size isRelative w = Ret tt w' /\
     addScalarRules rules w'
     = Ret (rules ++ ["SHADE_COLORMAP_VALUE"; "ISOLINE_STRIPE_VALUECOLOR"]) w') /\
  (exists w',
     setIsolineDarkness val w = Ret tt w' /\
     addScalarRules rules w'
     = Ret (rules ++ ["SHADE_COLORMAP_VALUE"; "ISOLINE_STRIPE_VALUECOLOR"]) w').
Proof.
  split; [|split].
  - eexists. split; [reflexivity|]. split; [reflexivity|].
    unfold addScalarRules. run. cbn. destruct b; [|reflexivity].
    rewrite <- app_assoc. reflexivity.
  - eexists. split; [apply setIsolineWidth_runs|].
    unfold addScalarRules, enabled_and_redrawn. run. cbn.
    destruct (Persistent.get (isolinesEnabled (this w))) eqn:E; cbn; rewrite ?E;
      rewrite <- app_assoc; reflexivity.
  - eexists. split; [apply setIsolineDarkness_runs|].
    unfold addScalarRules, enabled_and_redrawn. run. cbn.
    destruct (Persistent.get (isolinesEnabled (this w))) eqn:E; cbn; rewrite ?E;
      rewrite <- app_assoc; reflexivity.
Qed.

(** X17. [setIsolineDarkness(val)] and [getIsolineDarkness()] round-trip
    up to the narrowing to single precision: the darkness read back is
    [val] narrowed, hence [val] itself when [val] is a single-precision
    number. The isoline width is not touched by it, nor the darkness by
    [setIsolineWidth]. *)
Theorem isolineDarkness_round_trip
    (val size : double) (isRelative : bool) (w : World) :
  (exists w',
     setIsolineDarkness val w = Ret tt w' /\
     getIsolineDarkness w' = Ret (to_single val) w' /\
     (to_single val = val -> getIsolineDarkness w' = Ret val w') /\
     isolineWidth (this w') = isolineWidth (this w)) /\
  (exists w',
     setIsolineWidth size isRelative w = Ret tt w' /\
     isolineDarkness (this w') = isolineDarkness (this w)).
Proof.
  split.
  - eexists. split; [apply setIsolineDarkness_runs|].
    unfold getIsolineDarkness, gets, enabled_and_redrawn. cbn.
    destruct (Persistent.get (isolinesEnabled (this w))); cbn;
      repeat split; intros ->; reflexivity.
  - eexists. split; [apply setIsolineWidth_runs|].
    unfold enabled_and_redrawn. cbn.
    destruct (Persistent.get (isolinesEnabled (this w))); reflexivity.
Qed.

Lemma isolineDarkness_round_trip_witness :
  exists w',
    setIsolineDarkness 0.75%float (example_world example_values STANDARD) = Ret tt w' /\
    getIsolineDarkness w' = Ret 0.75%float w'.
Proof.
  destruct (isolineDarkness_round_trip 0.75%float 0%float false
              (example_world example_values STANDARD))
    as [(w' & Hset & _ & Hexact & _) _].
  exists w'. split; [exact Hset | apply Hexact; vm_compute; reflexivity].
Defined.

(** X18. [setScalarUniforms] sets "u_rangeLow" and "u_rangeHigh" to the two
    ends of the window, in this order, and then, exactly when isolines are
    enabled, "u_modLen" to what [getIsolineWidth()] returns and
    "u_modDarkness" to what [getIsolineDarkness()] returns. It sets nothing
    else and changes neither the object nor the caches. *)
Theorem setScalarUniforms_sets (w : World) (width darkness : double) :
  getIsolineWidth w = Ret width w ->
  getIsolineDarkness w = Ret darkness w ->
  exists w',
    setScalarUniforms w = Ret tt w' /\
    this w' = this w /\
    caches (globals w') = caches (globals w) /\
    effects (globals w') =
      effects (globals w)
      ++ [SetUniform "u_rangeLow" (fst (vizRange (this w)));
          SetUniform "u_rangeHigh" (snd (vizRange (this w)))]
      ++ (if Persistent.get (isolinesEnabled (this w))
          then [SetUniform "u_modLen" width; SetUniform "u_modDarkness" darkness]
          else []).
Proof.
  intros Hw Hd. inversion Hw as [Ew]. inversion Hd as [Ed].
  unfold setScalarUniforms, getIsolineWidth, getIsolineDarkness. run.
  destruct (Persistent.get (isolinesEnabled (this w))); cbn;
    eexists; (split; [reflexivity|]); cbn; repeat split;
    rewrite <- ?app_assoc; reflexivity.
Qed.

Lemma setScalarUniforms_sets_witness :
  let w := final (setIsolineWidth 0.5%float true) (example_world example_values STANDARD) in
  exists w',
    setScalarUniforms w = Ret tt w' /\
    effects (globals w') =
      effects (globals w)
      ++ [SetUniform "u_rangeLow" 1; SetUniform "u_rangeHigh" 5;
          SetUniform "u_modLen" 0.5; SetUniform "u_modDarkness" (to_single 0.7)]%float.
Proof.
  cbv zeta.
  destruct (setScalarUniforms_sets
              (final (setIsolineWidth 0.5%float true)
                 (example_world example_values STANDARD))
              0.5%float (to_single 0.7%float))
    as (w' & Hrun & _ & _ & Hlog); [reflexivity | reflexivity |].
  exists w'. split; [exact Hrun | exact Hlog].
Defined.

(** X19. The options menu. With nothing activated [buildScalarOptionsUI]
    changes nothing; activating "Reset colormap range" alone is
    [resetMapRange()]; activating "Enable isolines" alone flips the flag,
    and activating it again in a later frame gives the flag its first value
    back, the window and the values being untouched throughout. *)
Theorem options_menu_toggles (w : World) :
  buildScalarOptionsUI false false w = Ret tt w /\
  buildScalarOptionsUI true false w = resetMapRange w /\
  exists w1 w2,
    buildScalarOptionsUI false true w = Ret tt w1 /\
    getIsolinesEnabled w1 = Ret (negb (Persistent.get (isolinesEnabled (this w)))) w1 /\
    buildScalarOptionsUI false true w1 = Ret tt w2 /\
    getIsolinesEnabled w2 = Ret (Persistent.get (isolinesEnabled (this w))) w2 /\
    (vizRange (this w2), values (this w2)) = (vizRange (this w), values (this w)).
Proof.
  split; [reflexivity|]. split.
  - unfold buildScalarOptionsUI, mbind, M_bind, bind, when_.
    rewrite resetMapRange_runs. reflexivity.
  - eexists. eexists. split; [reflexivity|]. split; [reflexivity|].
    split; [reflexivity|]. cbn. rewrite negb_involutive. split; reflexivity.
Qed.

(** ** Construction and persistence *)

Lemma construct_cell {T} (cache : gmap string T) (name : string) (dflt : T) :
  pv_name (Persistent.construct cache name dflt) = name /\
  cell_cached (Persistent.construct cache name dflt) cache /\
  Persistent.get (Persistent.construct cache name dflt) = default dflt (cache !! name) /\
  pv_explicit (Persistent.construct cache name dflt) = bool_decide (is_Some (cache !! name)).
Proof.
  unfold Persistent.construct, cell_cached, Persistent.get.
  destruct (cache !! name) as [v|] eqn:E; cbn; repeat split; try discriminate.
  intros _. exact E.
Qed.

Lemma construct_returns rmm dcm (q : Quantity) (values_ : list double)
    (dt : DataType) (g : Globals) :
  construct rmm dcm q values_ dt g
  = Ret tt (final resetMapRange (mkWorld (initialise rmm dcm q values_ dt g) g)).
Proof. unfold construct, final. rewrite resetMapRange_runs. reflexivity. Qed.

Lemma coherent_construct rmm dcm (q : Quantity) (values_ : list double)
    (dt : DataType) (g : Globals) (w0 : World) :
  construct rmm dcm q values_ dt g = Ret tt w0 -> coherent w0.
Proof.
  unfold construct. rewrite resetMapRange_runs. intros H. inversion H.
  unfold coherent, initialise. cbn.
  repeat split; apply construct_cell.
Qed.

Lemma cell_cached_assign {T} (c : PersistentValue T) (v : T) (cache : gmap string T) :
  cell_cached (Persistent.assign c v)
    (Persistent.remember cache (Persistent.assign c v)).
Proof. intros _. apply lookup_insert_eq. Qed.

Lemma coherent_assign_cMap (v : string) (w : World) :
  coherent w -> coherent (assign_cMap v w).
Proof.
  intros (Hn & Hc & He & Hw & Hd). unfold coherent. cbn.
  repeat split; try apply Hn; try assumption. apply cell_cached_assign.
Qed.

Lemma coherent_assign_isolinesEnabled (v : bool) (w : World) :
  coherent w -> coherent (assign_isolinesEnabled v w).
Proof.
  intros (Hn & Hc & He & Hw & Hd). unfold coherent. cbn.
  repeat split; try apply Hn; try assumption. apply cell_cached_assign.
Qed.

Lemma coherent_assign_isolineWidth (v : ScaledValue) (w : World) :
  coherent w -> coherent (assign_isolineWidth v w).
Proof.
  intros (Hn & Hc & He & Hw & Hd). unfold coherent. cbn.
  repeat split; try apply Hn; try assumption. apply cell_cached_assign.
Qed.

Lemma coherent_assign_isolineDarkness (v : float) (w : World) :
  coherent w -> coherent (assign_isolineDarkness v w).
Proof.
  intros (Hn & Hc & He & Hw & Hd). unfold coherent. cbn.
  repeat split; try apply Hn; try assumption. apply cell_cached_assign.
Qed.

Lemma coherent_invoke (frd : bool) (c : Call) :
  keeps (fun w w' => coherent w -> coherent w') (invoke frd c).
Proof.
  assert (forall a b c : World,
            (coherent a -> coherent b) -> (coherent b -> coherent c) ->
            coherent a -> coherent c) as Htrans by auto.
  destruct c; cbn [invoke];
    frame_by (fun (a : World) (H : coherent a) => H) Htrans;
    apply keeps_update; intros w0 Hc;
    first [ exact Hc
          | apply coherent_assign_cMap, Hc
          | apply coherent_assign_isolinesEnabled, Hc
          | apply coherent_assign_isolineWidth, Hc
          | apply coherent_assign_isolineDarkness, Hc ].
Qed.

(** X20. The constructor always returns. It keeps the values it is given,
    takes [robustMinMax(values, 1e-5)] as data range, builds the histogram
    from the values with the colormap of the quantity and creates no render
    buffer; the last call it makes to the outside is the redraw request of
    [resetMapRange()]. The window it leaves is the one [resetMapRange()]
    gives: calling that right after construction changes no member. *)
Theorem construct_fresh
    (rmm : list double -> double -> double * double) (dcm : DataType -> string)
    (q : Quantity) (values_ : list double) (dt : DataType) (g : Globals) :
  exists w0,
    construct rmm dcm q values_ dt g = Ret tt w0 /\
    (quantity (this w0), values (this w0), dataType (this w0)) = (q, values_, dt) /\
    dataRange (this w0) = rmm values_ 1e-5%float /\
    hist (this w0) = mkHistogram (Persistent.get (cMap (this w0))) values_ /\
    scalarRenderBuffer (this w0) = None /\
    (exists l, effects (globals w0) = effects g ++ l ++ [RequestRedraw]) /\
    exists w1, resetMapRange w0 = Ret tt w1 /\ this w1 = this w0.
Proof.
  unfold construct. rewrite resetMapRange_runs. eexists. split; [reflexivity|].
  repeat split.
  - exists []. reflexivity.
  - eexists. split; [apply resetMapRange_runs|]. reflexivity.
Qed.

(** X21. Where the persisted members come from. Each of the four cells is
    keyed by the owner's prefix followed by "#cmap", "#isolinesEnabled",
    "#isolineWidth", "#isolineDarkness". It takes the cache entry under its
    key when there is one; otherwise the colormap is the default of the data
    type, isolines are off, the isoline width is the absolute width 0.02
    times the width of the data range, and the darkness is 0.7, the last two
    narrowed to single precision. *)
Theorem construct_persisted_members
    (rmm : list double -> double -> double * double) (dcm : DataType -> string)
    (q : Quantity) (values_ : list double) (dt : DataType) (g : Globals)
    (w0 : World) :
  construct rmm dcm q values_ dt g = Ret tt w0 ->
  let o := this w0 in
  let range := rmm values_ 1e-5%float in
  (pv_name (cMap o), pv_name (isolinesEnabled o),
   pv_name (isolineWidth o), pv_name (isolineDarkness o))
  = (uniquePrefix q +:+ "#cmap", uniquePrefix q +:+ "#isolinesEnabled",
     uniquePrefix q +:+ "#isolineWidth", uniquePrefix q +:+ "#isolineDarkness") /\
  Persistent.get (cMap o)
  = default (dcm dt) (cache_string g !! (uniquePrefix q +:+ "#cmap")) /\
  Persistent.get (isolinesEnabled o)
  = default false (cache_bool g !! (uniquePrefix q +:+ "#isolinesEnabled")) /\
  Persistent.get (isolineWidth o)
  = default
      (mkScaled false
         (to_single (PrimFloat.mul (PrimFloat.sub (snd range) (fst range)) 0.02%float)))
      (cache_scaled g !! (uniquePrefix q +:+ "#isolineWidth")) /\
  Persistent.get (isolineDarkness o)
  = default (to_single 0.7%float)
      (cache_float g !! (uniquePrefix q +:+ "#isolineDarkness")).
Proof.
  unfold construct. rewrite resetMapRange_runs. intros H. inversion H. cbv zeta.
  unfold initialise. cbn.
  split; [|repeat split; apply construct_cell].
  repeat f_equal; apply construct_cell.
Qed.

Lemma construct_persisted_members_witness :
  let o := this (example_world example_values STANDARD) in
  Persistent.get (cMap o) = "viridis" /\
  Persistent.get (isolinesEnabled o) = false /\
  Persistent.get (isolineWidth o) = mkScaled false (to_single 0.08) /\
  Persistent.get (isolineDarkness o) = to_single 0.7%float.
Proof.
  destruct (construct_persisted_members plainMinMax plainColorMap
              (mkQuantity "mesh#height") example_values STANDARD no_globals
              (example_world example_values STANDARD))
    as (_ & Hc & He & Hw & Hd); [apply example_world_constructed|].
  exact (conj Hc (conj He (conj Hw Hd))).
Defined.

Lemma construct_cell_cached {T} (cache : gmap string T) (name : string) (dflt v : T) :
  cache !! name = Some v -> Persistent.get (Persistent.construct cache name dflt) = v.
Proof. intros H. unfold Persistent.construct. rewrite H. reflexivity. Qed.

(** X22. The persisted cells stay in step with the caches. After
    construction, and after every later call of the public interface, each
    of the four cells still carries the key the constructor gave it, and a
    cell that holds an explicitly set value agrees with the cache entry
    under its key. Hence a quantity constructed anew for the same owner,
    from the globals of any such world, starts with every explicitly set
    value. *)
Theorem persisted_cells_coherent
    (rmm : list double -> double -> double * double) (dcm : DataType -> string)
    (frd : bool) :
  (forall q values_ dt g w0,
     construct rmm dcm q values_ dt g = Ret tt w0 -> coherent w0) /\
  (forall c w w', coherent w -> exec frd c w = Some w' -> coherent w') /\
  (forall w values_ dt w2,
     coherent w ->
     construct rmm dcm (quantity (this w)) values_ dt (globals w) = Ret tt w2 ->
     (pv_explicit (cMap (this w)) = true ->
      cMap (this w2) = cMap (this w)) /\
     (pv_explicit (isolinesEnabled (this w)) = true ->
      isolinesEnabled (this w2) = isolinesEnabled (this w)) /\
     (pv_explicit (isolineWidth (this w)) = true ->
      isolineWidth (this w2) = isolineWidth (this w)) /\
     (pv_explicit (isolineDarkness (this w)) = true ->
      isolineDarkness (this w2) = isolineDarkness (this w))).
Proof.
  split; [|split].
  - intros q values_ dt g w0. apply coherent_construct.
  - intros c w w' Hc H. rewrite exec_invoke in H.
    exact (coherent_invoke frd c w w' H Hc).
  - intros w values_ dt w2 ((Nc & Ne & Nw & Nd) & Hc & He & Hw & Hd) H.
    unfold construct in H. rewrite resetMapRange_runs in H. inversion H.
    unfold initialise, Persistent.construct. cbn.
    rewrite <- Nc, <- Ne, <- Nw, <- Nd.
    repeat split; intros Hx;
      [ rewrite (Hc Hx); destruct (cMap (this w))
      | rewrite (He Hx); destruct (isolinesEnabled (this w))
      | rewrite (Hw Hx); destruct (isolineWidth (this w))
      | rewrite (Hd Hx); destruct (isolineDarkness (this w)) ];
      cbn in *; subst; reflexivity.
Qed.

Lemma persisted_cells_coherent_witness :
  coherent (final (setIsolineWidth 0.5%float true)
              (example_world example_values STANDARD)).
Proof.
  apply (proj1 (proj2 (persisted_cells_coherent plainMinMax plainColorMap false))
           (SetIsolineWidth 0.5%float true) (example_world example_values STANDARD)).
  - apply (proj1 (persisted_cells_coherent plainMinMax plainColorMap false)
             (mkQuantity "mesh#height") example_values STANDARD no_globals).
    apply example_world_constructed.
  - vm_compute. reflexivity.
Defined.

(** X23. Settings survive destruction and reconstruction. From a quantity
    whose cells carry the constructor's keys: set the colormap, the isoline
    switch, the isoline width or the isoline darkness, then construct a
    quantity for the same owner (with any values and data type) from the
    globals left behind; the new quantity reads back the value that was
    set, not the default. *)
Theorem settings_survive_reconstruction
    (rmm : list double -> double -> double * double) (dcm : DataType -> string)
    (w : World) (values_ : list double) (dt : DataType)
    (cm : string) (en : bool) (size val : double) (isRelative : bool) :
  coherent w ->
  let again (g : Globals) := construct rmm dcm (quantity (this w)) values_ dt g in
  (exists w1 w2,
     setColorMap cm w = Ret tt w1 /\ again (globals w1) = Ret tt w2 /\
     getColorMap w2 = Ret cm w2) /\
  (exists w1 w2,
     setIsolinesEnabled en w = Ret tt w1 /\ again (globals w1) = Ret tt w2 /\
     getIsolinesEnabled w2 = Ret en w2) /\
  (exists w1 w2,
     setIsolineWidth size isRelative w = Ret tt w1 /\ again (globals w1) = Ret tt w2 /\
     Persistent.get (isolineWidth (this w2)) = mkScaled isRelative (to_single size)) /\
  (exists w1 w2,
     setIsolineDarkness val w = Ret tt w1 /\ again (globals w1) = Ret tt w2 /\
     getIsolineDarkness w2 = Ret (to_single val) w2).
Proof.
  intros ((Nc & Ne & Nw & Nd) & _) again. subst again. cbv beta.
  split; [|split; [|split]].
  - eexists. eexists. split; [reflexivity|]. split; [apply construct_returns|].
    unfold getColorMap, gets, final. rewrite resetMapRange_runs. cbn. f_equal.
    apply construct_cell_cached. rewrite <- Nc. apply lookup_insert_eq.
  - eexists. eexists. split; [reflexivity|]. split; [apply construct_returns|].
    unfold getIsolinesEnabled, gets, final. rewrite resetMapRange_runs. cbn. f_equal.
    apply construct_cell_cached. rewrite <- Ne. apply lookup_insert_eq.
  - eexists. eexists. split; [apply setIsolineWidth_runs|].
    split; [apply construct_returns|].
    unfold final. rewrite resetMapRange_runs. cbn.
    apply construct_cell_cached. rewrite <- Nw. unfold enabled_and_redrawn. cbn.
    destruct (Persistent.get (isolinesEnabled (this w)));
      cbn; apply lookup_insert_eq.
  - eexists. eexists. split; [apply setIsolineDarkness_runs|].
    split; [apply construct_returns|].
    unfold getIsolineDarkness, gets, final. rewrite resetMapRange_runs. cbn. f_equal.
    apply construct_cell_cached. rewrite <- Nd. unfold enabled_and_redrawn. cbn.
    destruct (Persistent.get (isolinesEnabled (this w)));
      cbn; apply lookup_insert_eq.
Qed.

Lemma settings_survive_reconstruction_witness :
  exists w1 w2,
    setColorMap "magma" (example_world example_values STANDARD) = Ret tt w1 /\
    construct plainMinMax plainColorMap (mkQuantity "mesh#height")
      [7; 8]%float SYMMETRIC (globals w1) = Ret tt w2 /\
    getColorMap w2 = Ret "magma" w2.
Proof.
  apply (settings_survive_reconstruction plainMinMax plainColorMap
           (example_world example_values STANDARD) [7; 8]%float SYMMETRIC
           "magma" true 0%float 0%float false).
  apply (coherent_construct plainMinMax plainColorMap (mkQuantity "mesh#height")
           example_values STANDARD no_globals).
  apply example_world_constructed.
Defined.

Lemma ensureRenderBuffersFilled_forced (w : World) :
  ensureRenderBuffersFilled true w
  = Ret tt (with_this (put_scalarRenderBuffer
              (Some (Buffer.setData
                       (match scalarRenderBuffer (this w) with
                        | Some b => b
                        | None => Buffer.generateAttributeBuffer Float_t
                        end)
                       (values (this w))))) w).
Proof.
  unfold ensureRenderBuffersFilled. run.
  destruct (scalarRenderBuffer (this w)) as [b|] eqn:Hb; cbn; rewrite ?Hb; reflexivity.
Qed.

(** X24. [ensureRenderBuffersFilled(forceRefill)] always returns and always
    leaves a render buffer behind, without touching the values or the
    globals. A buffer it creates, and any buffer when [forceRefill] is set,
    holds the current values narrowed to single precision; an existing
    buffer is otherwise left exactly as it is, stale or not. A further
    unforced call changes nothing. *)
Theorem ensureRenderBuffersFilled_effect (forceRefill : bool) (w : World) :
  exists b w',
    ensureRenderBuffersFilled forceRefill w = Ret tt w' /\
    scalarRenderBuffer (this w') = Some b /\
    (values (this w'), globals w') = (values (this w), globals w) /\
    (forceRefill = true \/ scalarRenderBuffer (this w) = None ->
     bufData b = Some (map to_single (values (this w)))) /\
    (forceRefill = false ->
     forall b0, scalarRenderBuffer (this w) = Some b0 -> w' = w) /\
    ensureRenderBuffersFilled false w' = Ret tt w'.
Proof.
  destruct forceRefill.
  - rewrite ensureRenderBuffersFilled_forced.
    eexists. eexists. split; [reflexivity|]. split; [reflexivity|].
    split; [reflexivity|]. split; [reflexivity|]. split; [discriminate|].
    rewrite ensureRenderBuffersFilled_false. reflexivity.
  - rewrite ensureRenderBuffersFilled_false. unfold filled_if_missing.
    destruct (scalarRenderBuffer (this w)) as [b0|] eqn:Hb.
    + exists b0, w. split; [reflexivity|]. split; [exact Hb|]. split; [reflexivity|].
      split; [intros [H|H]; discriminate H|]. split; [reflexivity|].
      rewrite ensureRenderBuffersFilled_false. unfold filled_if_missing.
      rewrite Hb. reflexivity.
    + eexists. eexists. split; [reflexivity|]. split; [reflexivity|].
      split; [reflexivity|]. split; [reflexivity|].
      split; [intros _ b0 H; discriminate H|].
      rewrite ensureRenderBuffersFilled_false. reflexivity.
Qed.

Lemma ensureRenderBuffersFilled_effect_witness :
  let w := final (updateData [9; 8; 7; 6; 5]%float)
             (example_world_with_buffer example_values STANDARD) in
  exists b w',
    ensureRenderBuffersFilled true w = Ret tt w' /\
    scalarRenderBuffer (this w') = Some b /\
    bufData b = Some (map to_single [9; 8; 7; 6; 5]%float).
Proof.
  cbv zeta.
  destruct (ensureRenderBuffersFilled_effect true
              (final (updateData [9; 8; 7; 6; 5]%float)
                 (example_world_with_buffer example_values STANDARD)))
    as (b & w' & Hrun & Hb & _ & Hdata & _).
  exists b, w'. split; [exact Hrun|]. split; [exact Hb|].
  apply Hdata. left. reflexivity.
Defined.
